(** * siba(4) bus support routines: a shallow embedding of
      sys/dev/bhnd/siba/siba_subr.c and its verification.

    Machine integers are [Z] with the wrap-around of their C type written
    out ([u8], [u16], [u32]); bit operations are [Z.land], [Z.lor],
    [Z.shiftl] and [Z.shiftr].  Functions that return an errno return a
    [result]; functions that touch the device info or the hardware pass
    the state explicitly. *)

From Stdlib Require Import ZArith Lia Bool String.
From stdpp Require Import base list.

Local Open Scope Z_scope.

(** ** Machine integers *)

Definition UINT32_MAX : Z := 4294967295.
Definition INT_MAX : Z := 2147483647.

Definition u8 (x : Z) : Z := x mod 2 ^ 8.
Definition u16 (x : Z) : Z := x mod 2 ^ 16.
Definition u32 (x : Z) : Z := x mod 2 ^ 32.

Definition is_u8 (x : Z) : Prop := 0 <= x < 2 ^ 8.
Definition is_u32 (x : Z) : Prop := 0 <= x <= UINT32_MAX.

(** [a << k] on an [int] operand, stored in a [uint32_t].  C defines the
    shift for a count from 0 to 31 only: [None] is a count for which it
    defines none. *)
Definition shl32 (a k : Z) : option Z :=
  if (0 <=? k) && (k <? 32) then Some (u32 (Z.shiftl a k)) else None.

(** [~m] on a [uint32_t]. *)
Definition not32 (m : Z) : Z := u32 (Z.lnot m).

(** ** errno values and the specification's error taxonomy *)

Inductive errno : Set :=
| ENOENT | ENODEV | EINVAL | ERANGE | EFAULT | ETIMEDOUT.

Inductive result (A : Type) : Type :=
| Ok (a : A)
| Err (e : errno).
Arguments Ok {A} a.
Arguments Err {A} e.

(** The four error classes of the specification, and the class of each errno
    the file returns: ENOENT and ENODEV are its "not found", EINVAL (a
    zero-length region, an unsupported address match) its "invalid
    argument", ERANGE (an address overflow) and EFAULT (a register offset
    outside the config block) its "out of range", ETIMEDOUT its timeout. *)
Inductive error_class : Set :=
| NotFound | InvalidArgument | OutOfRange | TimedOut.

Definition error_class_of (e : errno) : error_class :=
  match e with
  | ENOENT | ENODEV => NotFound
  | EINVAL => InvalidArgument
  | ERANGE | EFAULT => OutOfRange
  | ETIMEDOUT => TimedOut
  end.

(** ** Constants of the headers

    sibareg.h, sibavar.h and bhnd_ids.h are not among the sources: their
    constants are the fields of [sibareg], and every definition below takes
    them from there. *)

Class sibareg : Type := {
  OCP_VENDOR_BCM : Z;
  BHND_MFGID_BCM : Z;
  BHND_MFGID_INVALID : Z;
  SIBA_IDH_VENDOR_MASK : Z;  SIBA_IDH_VENDOR_SHIFT : Z;
  SIBA_IDH_DEVICE_MASK : Z;  SIBA_IDH_DEVICE_SHIFT : Z;
  SIBA_IDH_CORE_REV : Z -> Z;
  SIBA_IDL_SBREV_MASK : Z;   SIBA_IDL_SBREV_SHIFT : Z;
  SIBA_IDL_NRADDR_MASK : Z;  SIBA_IDL_NRADDR_SHIFT : Z;
  SIBA_IDL_SBREV_2_3 : Z;
  SIBA_MAX_ADDRSPACE : Z;
  SIBA_MAX_CFG : Z;
  SIBA_AM_ADNEG : Z;
  SIBA_AM_TYPE_MASK : Z;     SIBA_AM_TYPE_SHIFT : Z;
  SIBA_AM_BASE0_MASK : Z;
  SIBA_AM_ADINT0_MASK : Z;   SIBA_AM_ADINT0_SHIFT : Z;
  SIBA_AM_BASE1_MASK : Z;
  SIBA_AM_ADINT1_MASK : Z;   SIBA_AM_ADINT1_SHIFT : Z;
  SIBA_AM_BASE2_MASK : Z;
  SIBA_AM_ADINT2_MASK : Z;   SIBA_AM_ADINT2_SHIFT : Z;
  SIBA_CFG_SIZE : Z;
  SIBA_CFG0_TMSTATEHIGH : Z;
  SIBA_TMH_BUSY : Z
}.

(** Modelled from the spec: sibareg.h (not among the sources) defines the
    two config-block counts; the spec gives them as 1 block below the
    revision threshold and 2 blocks from it on. *)
Definition SIBA_CFG_NUM_2_2 : Z := 1.
Definition SIBA_CFG_NUM_2_3 : Z := 2.

(** Modelled from the spec: the SIBA_REG_GET macro of sibareg.h (not among
    the sources) extracts a register field, the bits under the field's mask
    moved down by the field's shift. *)
Definition SIBA_REG_GET (entry mask shift : Z) : Z :=
  Z.shiftr (Z.land entry mask) shift.

(** A field whose mask, moved down by its shift, stays below [bound]: so does
    every value extracted from an unsigned register. *)
Definition field_below (mask shift bound : Z) : Prop :=
  0 <= mask /\ 0 <= shift /\ Z.shiftr mask shift < bound.

(** The port types of bhnd.h. *)
Inductive bhnd_port_type : Set :=
| BHND_PORT_DEVICE | BHND_PORT_BRIDGE | BHND_PORT_AGENT.

Definition bhnd_port_type_eqb (a b : bhnd_port_type) : bool :=
  match a, b with
  | BHND_PORT_DEVICE, BHND_PORT_DEVICE
  | BHND_PORT_BRIDGE, BHND_PORT_BRIDGE
  | BHND_PORT_AGENT, BHND_PORT_AGENT => true
  | _, _ => false
  end.

(** ** Core identification *)

Record bhnd_core_info : Type := {
  vendor : Z;
  device : Z;
  hwrev : Z;
  core_idx : Z;
  unit_ : Z
}.

Record siba_core_id : Type := {
  core_info : bhnd_core_info;
  sonics_vendor : Z;
  sonics_rev : Z;
  num_addrspace : Z;
  num_cfg_blocks : Z
}.

Section Identity.
Context {R : sibareg}.

Definition siba_get_bhnd_mfgid (ocp_vendor : Z) : Z :=
  if ocp_vendor =? OCP_VENDOR_BCM then u16 BHND_MFGID_BCM
  else u16 BHND_MFGID_INVALID.

Definition siba_parse_core_id (idhigh idlow core_idx unit : Z) : siba_core_id :=
  let ocp_vendor :=
    u16 (SIBA_REG_GET idhigh SIBA_IDH_VENDOR_MASK SIBA_IDH_VENDOR_SHIFT) in
  let sonics_rev :=
    u8 (SIBA_REG_GET idlow SIBA_IDL_SBREV_MASK SIBA_IDL_SBREV_SHIFT) in
  let num_addrspace :=
    u8 (SIBA_REG_GET idlow SIBA_IDL_NRADDR_MASK SIBA_IDL_NRADDR_SHIFT + 1) in
  let num_cfg :=
    if SIBA_IDL_SBREV_2_3 <=? sonics_rev then SIBA_CFG_NUM_2_3
    else SIBA_CFG_NUM_2_2 in
  {| core_info := {|
       vendor := siba_get_bhnd_mfgid ocp_vendor;
       device :=
         u16 (SIBA_REG_GET idhigh SIBA_IDH_DEVICE_MASK SIBA_IDH_DEVICE_SHIFT);
       hwrev := u16 (SIBA_IDH_CORE_REV idhigh);
       core_idx := core_idx;
       unit_ := unit |};
     sonics_vendor := ocp_vendor;
     sonics_rev := sonics_rev;
     num_addrspace := num_addrspace;
     num_cfg_blocks := u8 num_cfg |}.

End Identity.

(** ** Address space / port / region mapping *)

Definition siba_addrspace_port (addrspace : Z) : Z :=
  if addrspace =? 0 then 0 else 1.

Definition siba_addrspace_region (addrspace : Z) : Z :=
  if addrspace =? 0 then 0 else u32 (addrspace - 1).

(** [min] is libkern's [u_int min(u_int, u_int)]. *)
Definition siba_addrspace_port_count (num_addrspace : Z) : Z :=
  Z.min num_addrspace 2.

Definition siba_addrspace_region_count (num_addrspace port : Z) : Z :=
  if port =? 0 then Z.min num_addrspace 1
  else if (port =? 1) && (2 <=? num_addrspace) then u32 (num_addrspace - 1)
  else 0.

Definition siba_is_port_valid (num_addrspace : Z) (type : bhnd_port_type)
    (port : Z) : bool :=
  if negb (bhnd_port_type_eqb type BHND_PORT_DEVICE) then false
  else if siba_addrspace_port_count num_addrspace <=? port then false
  else true.

Definition siba_addrspace_index (num_addrspace : Z) (type : bhnd_port_type)
    (port region : Z) : result Z :=
  if negb (siba_is_port_valid num_addrspace type port) then Err ENOENT
  else
    let after (idx : Z) : result Z :=
      if num_addrspace <=? idx then Err ENOENT else Ok idx in
    if port =? 0 then after region
    else if port =? 1 then after (u32 (region + 1))
    else Err ENOENT.

(** ** Register access, delays and the diagnostic sink

    The bus primitives of bhnd.h (bhnd_bus_read_4, bhnd_bus_write_4), DELAY
    and device_printf are the kernel's.  The hardware is a state [hw] that
    answers reads and takes writes and delays; what the driver did to it is
    kept in a trace, most recent event first. *)

Class bhnd_bus : Type := {
  hw : Type;
  bhnd_resource : Type;
  hw_read_4 : bhnd_resource -> Z -> hw -> Z * hw;
  hw_write_4 : bhnd_resource -> Z -> Z -> hw -> hw;
  hw_delay : Z -> hw -> hw
}.

Section Bus.
Context {B : bhnd_bus}.

Inductive event : Type :=
| EvRead (r : bhnd_resource) (reg val : Z)
| EvWrite (r : bhnd_resource) (reg val : Z)
| EvDelay (usec : Z)
| EvPrintf (msg : string).

Record world : Type := { dev : hw; trace : list event }.

(** Computations over the world. *)
Definition M (A : Type) : Type := world -> A * world.

Definition ret {A : Type} (a : A) : M A := fun w => (a, w).

Definition bind {A C : Type} (m : M A) (k : A -> M C) : M C :=
  fun w => let (a, w') := m w in k a w'.

Definition bhnd_bus_read_4 (r : bhnd_resource) (reg : Z) : M Z :=
  fun w =>
    let (v, d) := hw_read_4 r reg (dev w) in
    (u32 v, {| dev := d; trace := EvRead r reg (u32 v) :: trace w |}).

Definition bhnd_bus_write_4 (r : bhnd_resource) (reg val : Z) : M unit :=
  fun w =>
    (tt, {| dev := hw_write_4 r reg val (dev w);
            trace := EvWrite r reg val :: trace w |}).

Definition DELAY (usec : Z) : M unit :=
  fun w =>
    (tt, {| dev := hw_delay usec (dev w); trace := EvDelay usec :: trace w |}).

Definition device_printf (msg : string) : M unit :=
  fun w => (tt, {| dev := dev w; trace := EvPrintf msg :: trace w |}).

(** Register reads, register writes and diagnostics in a trace. *)
Fixpoint n_reads (t : list event) : nat :=
  match t with
  | [] => O
  | EvRead _ _ _ :: t' => S (n_reads t')
  | _ :: t' => n_reads t'
  end.

Fixpoint n_writes (t : list event) : nat :=
  match t with
  | [] => O
  | EvWrite _ _ _ :: t' => S (n_writes t')
  | _ :: t' => n_writes t'
  end.

Fixpoint n_printfs (t : list event) : nat :=
  match t with
  | [] => O
  | EvPrintf _ :: t' => S (n_printfs t')
  | _ :: t' => n_printfs t'
  end.

(** The number of times [for (i = i0; i < bound; i += 10)] runs its body when
    the body never returns: the steps of 10 from [i0] that stay below
    [bound]. *)
Definition iterations (bound i : Z) : nat := Z.to_nat ((bound - i + 9) / 10).

(** [for (int i = i0; i < bound; i += 10) body], where [body] answers
    [Some a] when it returns [a] from the enclosing function and [None]
    when it falls through to the next iteration.  The loop itself answers
    [None] when it ends because [i < bound] fails.  The recursion is on the
    iterations left; [i < bound] is tested as the source tests it, and it
    fails before the iterations run out ([for_step10_step] below). *)
Fixpoint for_step10_from {A : Type} (remaining : nat) (bound : Z)
    (body : M (option A)) (i : Z) (w : world) : option A * world :=
  if i <? bound then
    match remaining with
    | O => (None, w)
    | S remaining' =>
        match body w with
        | (Some a, w') => (Some a, w')
        | (None, w') => for_step10_from remaining' bound body (i + 10) w'
        end
    end
  else (None, w).

Definition for_step10 {A : Type} (bound : Z) (body : M (option A)) (i : Z)
    : M (option A) :=
  for_step10_from (iterations bound i) bound body i.

(** The world after [k] runs of a loop body. *)
Fixpoint after_runs {A : Type} (body : M (option A)) (k : nat) (w : world)
    : world :=
  match k with
  | O => w
  | S k' => after_runs body k' (snd (body w))
  end.

End Bus.

Notation "'let*' x := c1 'in' c2" := (bind c1 (fun x => c2))
  (at level 10, x name, c1 at level 100, c2 at level 200).

(** ** Resource lists

    The resource-list container is the kernel's.  A list is the sequence of
    its entries; [rl_next_rid] is the identifier the kernel picks for a new
    entry of a list and a resource type, [rman_res_bits] the width of
    rman_res_t and [SYS_RES_MEMORY] the memory resource type of
    machine/resource.h. *)

Record resource_list_entry : Type := {
  rle_type : Z;
  rle_rid : Z;
  rle_start : Z;
  rle_end : Z;
  rle_count : Z
}.

Definition resource_list : Type := list resource_list_entry.

Class rman : Type := {
  SYS_RES_MEMORY : Z;
  rman_res_bits : Z;
  rl_next_rid : resource_list -> Z -> Z
}.

Section ResourceList.
Context {K : rman}.

(** A value stored in an rman_res_t. *)
Definition rman_res (x : Z) : Z := x mod 2 ^ rman_res_bits.

(** Modelled from the spec: resource_list_add_next (the kernel's resource-list
    container, not among the sources) adds a range entry of the given type
    to the list and returns the identifier of the entry. *)
Definition resource_list_add_next (rl : resource_list) (type start end_ count : Z)
    : Z * resource_list :=
  let rid := rl_next_rid rl type in
  (rid, rl ++ [ {| rle_type := type; rle_rid := rid; rle_start := start;
                   rle_end := end_; rle_count := count |} ]).

End ResourceList.

(** ** Device info *)

Record siba_addrspace : Type := {
  sa_base : Z;
  sa_size : Z;
  sa_rid : Z;
  sa_bus_reserved : Z
}.

Section Driver.
Context {R : sibareg} {K : rman} {B : bhnd_bus}.

(** [addrspace] is the array of SIBA_MAX_ADDRSPACE entries, [cfg] and
    [cfg_rid] the arrays of SIBA_MAX_CFG config windows ([None] is NULL). *)
Record siba_devinfo : Type := {
  resources : resource_list;
  core_id : siba_core_id;
  addrspace : list siba_addrspace;
  cfg : list (option bhnd_resource);
  cfg_rid : list Z
}.

(** [dinfo->cfg[i]]. *)
Definition cfg_at (dinfo : siba_devinfo) (i : nat) : option bhnd_resource :=
  match cfg dinfo !! i with
  | Some r => r
  | None => None
  end.

(** The arrays of a device info have the sizes the structure declares. *)
Definition dinfo_wf (dinfo : siba_devinfo) : Prop :=
  length (addrspace dinfo) = Z.to_nat SIBA_MAX_ADDRSPACE /\
  length (cfg dinfo) = Z.to_nat SIBA_MAX_CFG /\
  length (cfg_rid dinfo) = Z.to_nat SIBA_MAX_CFG.

(** The record siba_alloc_dinfo returns when malloc succeeds: zeroed, every
    config window unmapped, the resource list empty. *)
Definition siba_alloc_dinfo : siba_devinfo :=
  {| resources := [];
     core_id := {| core_info := {| vendor := 0; device := 0; hwrev := 0;
                                   core_idx := 0; unit_ := 0 |};
                   sonics_vendor := 0; sonics_rev := 0;
                   num_addrspace := 0; num_cfg_blocks := 0 |};
     addrspace := replicate (Z.to_nat SIBA_MAX_ADDRSPACE)
                    {| sa_base := 0; sa_size := 0; sa_rid := 0;
                       sa_bus_reserved := 0 |};
     cfg := replicate (Z.to_nat SIBA_MAX_CFG) None;
     cfg_rid := replicate (Z.to_nat SIBA_MAX_CFG) (-1) |}.

Definition siba_init_dinfo (dinfo : siba_devinfo) (id : siba_core_id)
    : result unit * siba_devinfo :=
  (Ok tt, {| resources := resources dinfo; core_id := id;
             addrspace := addrspace dinfo; cfg := cfg dinfo;
             cfg_rid := cfg_rid dinfo |}).

Definition siba_find_addrspace (dinfo : siba_devinfo) (type : bhnd_port_type)
    (port region : Z) : option siba_addrspace :=
  match siba_addrspace_index (num_addrspace (core_id dinfo)) type port region with
  | Err _ => None
  | Ok addridx =>
      if SIBA_MAX_ADDRSPACE <=? addridx then None
      else addrspace dinfo !! Z.to_nat addridx
  end.

Definition siba_append_dinfo_region (dinfo : siba_devinfo)
    (addridx base size bus_reserved : Z) : result unit * siba_devinfo :=
  (* Verify that base + size will not overflow *)
  if (0 <? size) && (u32 (UINT32_MAX - u32 (size - 1)) <? base) then
    (Err ERANGE, dinfo)
  (* Verify that size - bus_reserved will not underflow *)
  else if size <? bus_reserved then (Err ERANGE, dinfo)
  (* Must not be 0-length *)
  else if size =? 0 then (Err EINVAL, dinfo)
  (* Must not exceed addrspace array size *)
  else if SIBA_MAX_ADDRSPACE <=? addridx then (Err EINVAL, dinfo)
  else
    let r_size := rman_res (u32 (size - bus_reserved)) in
    let (rid, rl) :=
      resource_list_add_next (resources dinfo) SYS_RES_MEMORY
        (rman_res base) (rman_res (base + rman_res (r_size - 1))) r_size in
    let sa := {| sa_base := base; sa_size := size; sa_rid := rid;
                 sa_bus_reserved := bus_reserved |} in
    (Ok tt, {| resources := rl; core_id := core_id dinfo;
               addrspace := <[Z.to_nat addridx := sa]> (addrspace dinfo);
               cfg := cfg dinfo; cfg_rid := cfg_rid dinfo |}).

(** ** Address match registers *)

(** [None] is a register whose size the function computes with a shift
    that C leaves undefined; the function returns normally on every other
    register. *)
Definition siba_parse_admatch (am : Z) : option (result (Z * Z)) :=
  if negb (Z.land am SIBA_AM_ADNEG =? 0) then Some (Err EINVAL)
  else
    let am_type := SIBA_REG_GET am SIBA_AM_TYPE_MASK SIBA_AM_TYPE_SHIFT in
    let decoded (addr adint : Z) : option (result (Z * Z)) :=
      match shl32 1 (u32 (adint + 1)) with
      | Some size => Some (Ok (addr, size))
      | None => None
      end in
    if am_type =? 0 then
      decoded (Z.land am SIBA_AM_BASE0_MASK)
        (SIBA_REG_GET am SIBA_AM_ADINT0_MASK SIBA_AM_ADINT0_SHIFT)
    else if am_type =? 1 then
      decoded (Z.land am SIBA_AM_BASE1_MASK)
        (SIBA_REG_GET am SIBA_AM_ADINT1_MASK SIBA_AM_ADINT1_SHIFT)
    else if am_type =? 2 then
      decoded (Z.land am SIBA_AM_BASE2_MASK)
        (SIBA_REG_GET am SIBA_AM_ADINT2_MASK SIBA_AM_ADINT2_SHIFT)
    else Some (Err EINVAL).

(** ** Target state *)

(** One poll of siba_wait_target_busy's loop: read SIBA_CFG0_TMSTATEHIGH,
    return 0 when SIBA_TMH_BUSY is clear, else wait 10 microseconds. *)
Definition busy_poll (r : bhnd_resource) : M (option (result unit)) :=
  let* ts_high := bhnd_bus_read_4 r SIBA_CFG0_TMSTATEHIGH in
  if Z.land ts_high SIBA_TMH_BUSY =? 0 then ret (Some (Ok tt))
  else
    let* _ := DELAY 10 in
    ret None.

Definition siba_wait_target_busy (dinfo : siba_devinfo) (usec : Z)
    : M (result unit) :=
  match cfg_at dinfo 0 with
  | None => ret (Err ENODEV)
  | Some r =>
      let* done := for_step10 usec (busy_poll r) 0 in
      match done with
      | Some res => ret res
      | None =>
          let* _ := device_printf "SIBA_TMH_BUSY wait timeout\n" in
          ret (Err ETIMEDOUT)
      end
  end.

(** The read-modify-write of one iteration of siba_write_target_state's
    loop, up to its test: whether the masked bits read back as written. *)
Definition write_verify (r : bhnd_resource) (reg value mask : Z) : M bool :=
  let* rval := bhnd_bus_read_4 r reg in
  let rval := Z.land rval (not32 mask) in
  let rval := Z.lor rval (Z.land value mask) in
  let* _ := bhnd_bus_write_4 r reg rval in
  let* _ := bhnd_bus_read_4 r reg in
  let* _ := DELAY 1 in
  let* rval := bhnd_bus_read_4 r reg in
  ret (Z.land rval mask =? Z.land value mask).

Definition write_attempt (dinfo : siba_devinfo) (r : bhnd_resource)
    (reg value mask : Z) : M (option (result unit)) :=
  let* latched := write_verify r reg value mask in
  if latched then
    let* res := siba_wait_target_busy dinfo 100000 in
    ret (Some res)
  else
    let* _ := DELAY 10 in
    ret None.

(** [reg] is a bus_size_t, an unsigned type: [reg > SIBA_CFG_SIZE-4] is the
    comparison of two non-negative numbers for a SIBA_CFG_SIZE of at least
    4, a block that holds a 32-bit register. *)
Definition siba_write_target_state (dinfo : siba_devinfo)
    (reg value mask : Z) : M (result unit) :=
  match cfg_at dinfo 0 with
  | None => ret (Err ENODEV)
  | Some r =>
      if SIBA_CFG_SIZE - 4 <? reg then ret (Err EFAULT)
      else
        let* done := for_step10 300 (write_attempt dinfo r reg value mask) 0 in
        match done with
        | Some res => ret res
        | None => ret (Err ETIMEDOUT)
        end
  end.

(** The world after [k] polls of SIBA_CFG0_TMSTATEHIGH that found the target
    busy, and whether poll number [k] (from 0) finds it busy. *)
Fixpoint after_polls (r : bhnd_resource) (k : nat) (w : world) : world :=
  match k with
  | O => w
  | S k' =>
      after_polls r k'
        (snd (DELAY 10 (snd (bhnd_bus_read_4 r SIBA_CFG0_TMSTATEHIGH w))))
  end.

Definition busy_at (r : bhnd_resource) (k : nat) (w : world) : bool :=
  negb (Z.land (fst (bhnd_bus_read_4 r SIBA_CFG0_TMSTATEHIGH
                       (after_polls r k w))) SIBA_TMH_BUSY =? 0).

(** The world after [k] iterations of siba_write_target_state's loop whose
    read-back did not match, and whether iteration number [k] (from 0)
    reads back the masked value. *)
Fixpoint after_retries (r : bhnd_resource) (reg value mask : Z) (k : nat)
    (w : world) : world :=
  match k with
  | O => w
  | S k' =>
      after_retries r reg value mask k'
        (snd (DELAY 10 (snd (write_verify r reg value mask w))))
  end.

Definition latched_at (r : bhnd_resource) (reg value mask : Z) (k : nat)
    (w : world) : bool :=
  fst (write_verify r reg value mask (after_retries r reg value mask k w)).

End Driver.

(** ** A concrete configuration

    A register layout for the constants of sibareg.h, a 64-bit rman_res_t
    whose resource identifiers count up per type, and two simulated devices:
    one whose registers latch what is written, one whose registers read
    all-ones whatever is written.  The examples below run the driver on
    them. *)

Definition siba_regs : sibareg := {|
  OCP_VENDOR_BCM := 0x4243;
  BHND_MFGID_BCM := 0x4BF;
  BHND_MFGID_INVALID := 0;
  SIBA_IDH_VENDOR_MASK := 0xFFFF0000;  SIBA_IDH_VENDOR_SHIFT := 16;
  SIBA_IDH_DEVICE_MASK := 0x8FF0;      SIBA_IDH_DEVICE_SHIFT := 4;
  SIBA_IDH_CORE_REV idh :=
    Z.lor (Z.shiftr (Z.land idh 0x7000) 8) (Z.land idh 0xF);
  SIBA_IDL_SBREV_MASK := 0xF0000000;   SIBA_IDL_SBREV_SHIFT := 28;
  SIBA_IDL_NRADDR_MASK := 0x38;        SIBA_IDL_NRADDR_SHIFT := 3;
  SIBA_IDL_SBREV_2_3 := 1;
  SIBA_MAX_ADDRSPACE := 4;
  SIBA_MAX_CFG := 2;
  SIBA_AM_ADNEG := 0x800;
  SIBA_AM_TYPE_MASK := 0x3;            SIBA_AM_TYPE_SHIFT := 0;
  SIBA_AM_BASE0_MASK := 0xFFFFFF00;
  SIBA_AM_ADINT0_MASK := 0xF8;         SIBA_AM_ADINT0_SHIFT := 3;
  SIBA_AM_BASE1_MASK := 0xFFFFF000;
  SIBA_AM_ADINT1_MASK := 0x1F8;        SIBA_AM_ADINT1_SHIFT := 3;
  SIBA_AM_BASE2_MASK := 0xFFFF0000;
  SIBA_AM_ADINT2_MASK := 0x1F8;        SIBA_AM_ADINT2_SHIFT := 3;
  SIBA_CFG_SIZE := 0x100;
  SIBA_CFG0_TMSTATEHIGH := 0x9C;
  SIBA_TMH_BUSY := 0x4
|}.

Fixpoint count_type (rl : resource_list) (type : Z) : Z :=
  match rl with
  | [] => 0
  | e :: rl' =>
      (if rle_type e =? type then 1 else 0) + count_type rl' type
  end.

Definition counting_rman : rman := {|
  SYS_RES_MEMORY := 3;
  rman_res_bits := 64;
  rl_next_rid := count_type
|}.

(** Registers that keep what is written to them, by offset; unwritten
    registers read zero. *)
Fixpoint reg_lookup (regs : list (Z * Z)) (reg : Z) : Z :=
  match regs with
  | [] => 0
  | (k, v) :: regs' => if k =? reg then v else reg_lookup regs' reg
  end.

Definition latching_bus : bhnd_bus := {|
  hw := list (Z * Z);
  bhnd_resource := unit;
  hw_read_4 _ reg regs := (reg_lookup regs reg, regs);
  hw_write_4 _ reg val regs := (reg, val) :: regs;
  hw_delay _ regs := regs
|}.

(** Registers that read all-ones whatever is written. *)
Definition stuck_bus : bhnd_bus := {|
  hw := unit;
  bhnd_resource := unit;
  hw_read_4 _ _ h := (UINT32_MAX, h);
  hw_write_4 _ _ _ h := h;
  hw_delay _ h := h
|}.

(** A device info with its first config window mapped. *)
Definition mapped_dinfo {R : sibareg} {B : bhnd_bus} (r : bhnd_resource)
    : siba_devinfo :=
  {| resources := resources siba_alloc_dinfo;
     core_id := core_id siba_alloc_dinfo;
     addrspace := addrspace siba_alloc_dinfo;
     cfg := <[0%nat := Some r]> (cfg siba_alloc_dinfo);
     cfg_rid := <[0%nat := 0]> (cfg_rid siba_alloc_dinfo) |}.

Definition stuck_dinfo : siba_devinfo (B:=stuck_bus) :=
  mapped_dinfo (R:=siba_regs) (B:=stuck_bus) tt.

Definition latching_dinfo : siba_devinfo (B:=latching_bus) :=
  mapped_dinfo (R:=siba_regs) (B:=latching_bus) tt.

Definition unmapped_dinfo : siba_devinfo (B:=latching_bus) :=
  siba_alloc_dinfo (R:=siba_regs) (B:=latching_bus).

Definition stuck_world : world (B:=stuck_bus) :=
  @Build_world stuck_bus tt [].

Definition latching_world : world (B:=latching_bus) :=
  @Build_world latching_bus [] [].

(** ** Releasing a device info

    bhnd_release_resource and resource_list_free are the kernel's.  What
    siba_free_dinfo asks the bus to release is kept as the list of its
    bhnd_release_resource calls, first call first. *)

Record release_call {B : bhnd_bus} : Type := {
  rel_type : Z;
  rel_rid : Z;
  rel_res : bhnd_resource
}.

(** Modelled from the spec: resource_list_free (the kernel's resource-list
    container, not among the sources) releases the whole list. *)
Definition resource_list_free (rl : resource_list) : resource_list := [].

Section Release.
Context {R : sibareg} {K : rman} {B : bhnd_bus}.

(** [dinfo->cfg_rid[i]]. *)
Definition cfg_rid_at (dinfo : siba_devinfo) (i : nat) : Z :=
  match cfg_rid dinfo !! i with
  | Some rid => rid
  | None => 0
  end.

(** One iteration of siba_free_dinfo's loop over the config windows: an
    unmapped window is skipped, a mapped one is released with its resource
    identifier and its slot reset to NULL and -1. *)
Definition free_cfg (st : list release_call * siba_devinfo) (i : nat)
    : list release_call * siba_devinfo :=
  let (calls, dinfo) := st in
  match cfg_at dinfo i with
  | None => (calls, dinfo)
  | Some r =>
      (calls ++ [ {| rel_type := SYS_RES_MEMORY;
                     rel_rid := cfg_rid_at dinfo i; rel_res := r |} ],
       {| resources := resources dinfo; core_id := core_id dinfo;
          addrspace := addrspace dinfo;
          cfg := <[i := None]> (cfg dinfo);
          cfg_rid := <[i := -1]> (cfg_rid dinfo) |})
  end.

(** siba_free_dinfo: the bhnd_release_resource calls it makes, and the
    record as it stands when it is handed to free(). *)
Definition siba_free_dinfo (dinfo : siba_devinfo)
    : list release_call * siba_devinfo :=
  let dinfo0 :=
    {| resources := resource_list_free (resources dinfo);
       core_id := core_id dinfo; addrspace := addrspace dinfo;
       cfg := cfg dinfo; cfg_rid := cfg_rid dinfo |} in
  fold_left free_cfg (seq 0 (Z.to_nat SIBA_MAX_CFG)) ([], dinfo0).

(** The release of config window [i] of a device info, if it is mapped. *)
Definition release_of (dinfo : siba_devinfo) (i : nat) : option release_call :=
  match cfg_at dinfo i with
  | None => None
  | Some r =>
      Some {| rel_type := SYS_RES_MEMORY; rel_rid := cfg_rid_at dinfo i;
              rel_res := r |}
  end.

End Release.

(** ** Address match register offsets

    The offsets of the four address match registers and the SB0_REG_ABS
    macro that makes them relative to the core's enumeration space are
    sibareg.h's (not among the sources): they are the fields of
    [sibareg_admatch]. *)

Class sibareg_admatch : Type := {
  SB0_REG_ABS : Z -> Z;
  SIBA_CFG0_ADMATCH0 : Z;
  SIBA_CFG0_ADMATCH1 : Z;
  SIBA_CFG0_ADMATCH2 : Z;
  SIBA_CFG0_ADMATCH3 : Z
}.

Definition siba_admatch_offset {A : sibareg_admatch} (addrspace : Z) : Z :=
  if addrspace =? 0 then u32 (SB0_REG_ABS SIBA_CFG0_ADMATCH0)
  else if addrspace =? 1 then u32 (SB0_REG_ABS SIBA_CFG0_ADMATCH1)
  else if addrspace =? 2 then u32 (SB0_REG_ABS SIBA_CFG0_ADMATCH2)
  else if addrspace =? 3 then u32 (SB0_REG_ABS SIBA_CFG0_ADMATCH3)
  else 0.

Definition siba_admatch_regs : sibareg_admatch := {|
  SB0_REG_ABS off := 0xF00 + off;
  SIBA_CFG0_ADMATCH0 := 0xB0;
  SIBA_CFG0_ADMATCH1 := 0x70;
  SIBA_CFG0_ADMATCH2 := 0x68;
  SIBA_CFG0_ADMATCH3 := 0x60
|}.

(** ** What a run leaves in the trace *)

Section TraceShape.
Context {R : sibareg} {B : bhnd_bus}.

(** [w'] is [w] after more events, each of which satisfies [P]. *)
Definition extends (P : event -> Prop) (w w' : world) : Prop :=
  exists evs, trace w' = evs ++ trace w /\ Forall P evs.

(** The events siba_write_target_state may leave for window [r], register
    [reg], [value] and [mask]: reads of [reg] and of SIBA_CFG0_TMSTATEHIGH,
    writes to [reg] whose masked bits are those of [value], delays and
    diagnostics. *)
Definition target_state_event (r : bhnd_resource) (reg value mask : Z)
    (e : event) : Prop :=
  match e with
  | EvRead r' reg' _ => r' = r /\ (reg' = reg \/ reg' = SIBA_CFG0_TMSTATEHIGH)
  | EvWrite r' reg' v =>
      r' = r /\ reg' = reg /\ Z.land v mask = Z.land value mask
  | EvDelay _ => True
  | EvPrintf _ => True
  end.

(** The events siba_wait_target_busy may leave for window [r]: reads of
    SIBA_CFG0_TMSTATEHIGH, delays of 10 microseconds and diagnostics. *)
Definition busy_wait_event (r : bhnd_resource) (e : event) : Prop :=
  match e with
  | EvRead r' reg' _ => r' = r /\ reg' = SIBA_CFG0_TMSTATEHIGH
  | EvWrite _ _ _ => False
  | EvDelay usec => usec = 10
  | EvPrintf _ => True
  end.

End TraceShape.

(** A device info with its second config window mapped too, under resource
    identifiers 0 and 1. *)
Definition two_window_dinfo : siba_devinfo (B:=latching_bus) :=
  @Build_siba_devinfo latching_bus
    (resources unmapped_dinfo) (core_id unmapped_dinfo)
    (addrspace unmapped_dinfo) [Some tt; Some tt] [0; 1].

(** A device info allocated and then initialised with a parsed core id that
    counts two address spaces. *)
Definition probed_dinfo : siba_devinfo (B:=latching_bus) :=
  snd (siba_init_dinfo unmapped_dinfo
         (siba_parse_core_id (R:=siba_regs) 0x4243800F 0x10000008 3 0)).

(** Closed range and layout conditions, by evaluation. *)
Ltac decide_layout := repeat split; vm_compute; congruence.

(** * Verification *)

(** ** Machine arithmetic *)

Lemma u32_small (x : Z) : is_u32 x -> u32 x = x.
Proof. unfold is_u32, u32, UINT32_MAX. intros H. apply Z.mod_small. lia. Qed.

Lemma u32_range (x : Z) : is_u32 (u32 x).
Proof.
  unfold is_u32, u32, UINT32_MAX.
  pose proof (Z.mod_pos_bound x (2 ^ 32)). lia.
Qed.

Lemma Z_land_le_r (a b : Z) : 0 <= a -> 0 <= b -> Z.land a b <= b.
Proof.
  intros Ha Hb.
  pose proof (N.land_le_r (Z.to_N a) (Z.to_N b)) as H.
  apply N2Z.inj_le in H. rewrite N2Z.inj_land in H.
  now rewrite !Z2N.id in H.
Qed.

Lemma SIBA_REG_GET_range (entry mask shift bound : Z) :
  0 <= entry -> field_below mask shift bound ->
  0 <= SIBA_REG_GET entry mask shift < bound.
Proof.
  intros He (Hm & Hs & Hb). unfold SIBA_REG_GET. split.
  - apply Z.shiftr_nonneg, Z.land_nonneg. now left.
  - eapply Z.le_lt_trans; [| exact Hb].
    rewrite !Z.shiftr_div_pow2 by assumption.
    apply Z.div_le_mono; [apply Z.pow_pos_nonneg; lia |].
    now apply Z_land_le_r.
Qed.

(** ** Address space / port / region mapping *)

(** Every address space index below the count maps to a port and region
    that siba_addrspace_index maps back to it, and that port and region are
    among those siba advertises for the count. *)
Lemma siba_addrspace_index_roundtrip (n i : Z) :
  0 <= i < n -> n <= UINT32_MAX ->
  siba_addrspace_index n BHND_PORT_DEVICE
    (siba_addrspace_port i) (siba_addrspace_region i) = Ok i
  /\ siba_addrspace_port i < siba_addrspace_port_count n
  /\ siba_addrspace_region i
       < siba_addrspace_region_count n (siba_addrspace_port i)
  /\ (i = 0 -> siba_addrspace_port i = 0 /\ siba_addrspace_region i = 0)
  /\ (1 <= i -> siba_addrspace_port i = 1 /\ siba_addrspace_region i = i - 1).
Proof.
  intros Hi Hn.
  unfold siba_addrspace_index, siba_is_port_valid, siba_addrspace_port_count,
    siba_addrspace_region_count, siba_addrspace_port, siba_addrspace_region.
  destruct (Z.eqb_spec i 0) as [-> | Hne]; simpl.
  - destruct (Z.leb_spec (Z.min n 2) 0); [lia |]. simpl.
    destruct (Z.leb_spec n 0); [lia |].
    repeat split; lia.
  - assert (Hr : u32 (i - 1) = i - 1) by (apply u32_small; unfold is_u32; lia).
    assert (Hr' : u32 (n - 1) = n - 1) by (apply u32_small; unfold is_u32; lia).
    rewrite Hr, Hr'.
    destruct (Z.leb_spec (Z.min n 2) 1); [lia |]. simpl.
    replace (i - 1 + 1) with i by lia.
    rewrite (u32_small i) by (unfold is_u32; lia).
    destruct (Z.leb_spec n i); [lia |].
    destruct (Z.leb_spec 2 n); [| lia].
    repeat split; lia.
Qed.

Lemma siba_addrspace_index_roundtrip_witness :
  siba_addrspace_index 4 BHND_PORT_DEVICE
    (siba_addrspace_port 3) (siba_addrspace_region 3) = Ok 3
  /\ siba_addrspace_port 3 = 1 /\ siba_addrspace_region 3 = 2.
Proof.
  destruct (siba_addrspace_index_roundtrip 4 3) as (H1 & _ & _ & _ & H5);
    [lia | unfold UINT32_MAX; lia |].
  split; [exact H1 | apply H5; lia].
Defined.

(** Among the ports and regions siba advertises, only the one an index maps
    to is mapped back to that index, and only device ports are mapped. *)
Lemma siba_addrspace_index_advertised_unique
    (n : Z) (type : bhnd_port_type) (port region i : Z) :
  is_u32 n -> is_u32 port -> is_u32 region ->
  region < siba_addrspace_region_count n port ->
  siba_addrspace_index n type port region = Ok i ->
  type = BHND_PORT_DEVICE
  /\ port = siba_addrspace_port i /\ region = siba_addrspace_region i.
Proof.
  unfold is_u32, UINT32_MAX. intros Hn Hp Hr Hlt.
  unfold siba_addrspace_index, siba_is_port_valid, siba_addrspace_port_count,
    siba_addrspace_region_count, siba_addrspace_port, siba_addrspace_region in *.
  destruct type; simpl; try discriminate.
  destruct (Z.leb_spec (Z.min n 2) port); simpl; [discriminate |].
  destruct (Z.eqb_spec port 0) as [-> | Hp0].
  - destruct (Z.leb_spec n region); [discriminate |].
    intros [= <-]. assert (region = 0) as -> by lia. simpl. auto.
  - destruct (Z.eqb_spec port 1) as [-> | Hp1]; [| discriminate].
    simpl in Hlt. destruct (Z.leb_spec 2 n); [| lia].
    rewrite (u32_small (n - 1)) in Hlt by (unfold is_u32, UINT32_MAX; lia).
    rewrite (u32_small (region + 1)) by (unfold is_u32, UINT32_MAX; lia).
    destruct (Z.leb_spec n (region + 1)); [discriminate |].
    intros [= <-].
    destruct (Z.eqb_spec (region + 1) 0); [lia |].
    replace (region + 1 - 1) with region by lia.
    rewrite (u32_small region) by (unfold is_u32, UINT32_MAX; lia). auto.
Qed.

Lemma siba_addrspace_index_advertised_unique_witness :
  BHND_PORT_DEVICE = BHND_PORT_DEVICE
  /\ 1 = siba_addrspace_port 2 /\ 1 = siba_addrspace_region 2.
Proof.
  apply (siba_addrspace_index_advertised_unique 4 BHND_PORT_DEVICE 1 1 2);
    unfold is_u32, UINT32_MAX; try lia; reflexivity.
Defined.

(** C1 (evaluation at the failing input).  With two address spaces,
    siba_addrspace_index maps port 0, region 1 to index 1, the index of
    port 1, region 0, although port 0 has a single region; and it maps
    port 1, region 0xFFFFFFFF to index 0, the index of port 0, region 0,
    because region + 1 wraps around. *)
Lemma siba_addrspace_index_not_injective :
  siba_addrspace_index 2 BHND_PORT_DEVICE 0 1 = Ok 1
  /\ siba_addrspace_index 2 BHND_PORT_DEVICE
       (siba_addrspace_port 1) (siba_addrspace_region 1) = Ok 1
  /\ (siba_addrspace_port 1, siba_addrspace_region 1) = (1, 0)
  /\ siba_addrspace_region_count 2 0 = 1
  /\ siba_addrspace_index 2 BHND_PORT_DEVICE 1 UINT32_MAX = Ok 0
  /\ (siba_addrspace_port 0, siba_addrspace_region 0) = (0, 0).
Proof. repeat split. Qed.

(** C9.  Port and region counts: min(n, 2) ports; min(n, 1) regions on
    port 0; n - 1 regions on port 1 when n >= 2 and none otherwise; no
    region on any other port. *)
Theorem siba_addrspace_counts (n p : Z) :
  is_u32 n ->
  siba_addrspace_port_count n = Z.min n 2
  /\ siba_addrspace_region_count n 0 = Z.min n 1
  /\ (2 <= n -> siba_addrspace_region_count n 1 = n - 1)
  /\ (n < 2 -> siba_addrspace_region_count n 1 = 0)
  /\ (2 <= p -> siba_addrspace_region_count n p = 0).
Proof.
  unfold is_u32, UINT32_MAX. intros Hn.
  unfold siba_addrspace_port_count, siba_addrspace_region_count.
  repeat split.
  - intros H2. simpl. destruct (Z.leb_spec 2 n); [| lia].
    apply u32_small. unfold is_u32, UINT32_MAX. lia.
  - intros H2. simpl. destruct (Z.leb_spec 2 n); [lia | reflexivity].
  - intros Hp.
    destruct (Z.eqb_spec p 0); [lia |].
    destruct (Z.eqb_spec p 1); [lia | reflexivity].
Qed.

Lemma siba_addrspace_counts_witness :
  siba_addrspace_port_count 4 = 2
  /\ siba_addrspace_region_count 4 0 = 1
  /\ siba_addrspace_region_count 4 1 = 3
  /\ siba_addrspace_region_count 4 2 = 0.
Proof.
  destruct (siba_addrspace_counts 4 2) as (H1 & H2 & H3 & _ & H5);
    [unfold is_u32, UINT32_MAX; lia |].
  rewrite H1, H2, H3, H5 by lia. repeat split.
Defined.

(** ** Core identification *)

Section IdentityProofs.
Context {R : sibareg}.

(** C8.  siba_parse_core_id is a total function of the two raw registers.
    When the register fields fit the 8- and 16-bit members they are stored
    in, the address space count is the NRADDR field plus one, the number of
    config blocks is 1 below revision SIBA_IDL_SBREV_2_3 and 2 from it on,
    and the manufacturer is BHND_MFGID_BCM for the vendor OCP_VENDOR_BCM
    and BHND_MFGID_INVALID for every other vendor. *)
Theorem siba_parse_core_id_spec (idhigh idlow core_idx unit : Z) :
  is_u32 idhigh -> is_u32 idlow ->
  field_below SIBA_IDH_VENDOR_MASK SIBA_IDH_VENDOR_SHIFT (2 ^ 16) ->
  field_below SIBA_IDL_SBREV_MASK SIBA_IDL_SBREV_SHIFT (2 ^ 8) ->
  field_below SIBA_IDL_NRADDR_MASK SIBA_IDL_NRADDR_SHIFT (2 ^ 8 - 1) ->
  let id := siba_parse_core_id idhigh idlow core_idx unit in
  let ocp_vendor :=
    SIBA_REG_GET idhigh SIBA_IDH_VENDOR_MASK SIBA_IDH_VENDOR_SHIFT in
  let rev := SIBA_REG_GET idlow SIBA_IDL_SBREV_MASK SIBA_IDL_SBREV_SHIFT in
  num_addrspace id
    = SIBA_REG_GET idlow SIBA_IDL_NRADDR_MASK SIBA_IDL_NRADDR_SHIFT + 1
  /\ sonics_rev id = rev
  /\ (rev < SIBA_IDL_SBREV_2_3 -> num_cfg_blocks id = 1)
  /\ (SIBA_IDL_SBREV_2_3 <= rev -> num_cfg_blocks id = 2)
  /\ sonics_vendor id = ocp_vendor
  /\ (ocp_vendor = OCP_VENDOR_BCM ->
      vendor (core_info id) = u16 BHND_MFGID_BCM)
  /\ (ocp_vendor <> OCP_VENDOR_BCM ->
      vendor (core_info id) = u16 BHND_MFGID_INVALID).
Proof.
  intros Hh Hl Hv Hr Hn id ocp_vendor rev.
  destruct Hh as [Hh _], Hl as [Hl _].
  pose proof (SIBA_REG_GET_range idhigh _ _ _ Hh Hv) as Bv.
  pose proof (SIBA_REG_GET_range idlow _ _ _ Hl Hr) as Br.
  pose proof (SIBA_REG_GET_range idlow _ _ _ Hl Hn) as Bn.
  assert (Ev : u16 ocp_vendor = ocp_vendor)
    by (apply Z.mod_small; exact Bv).
  assert (Er : u8 rev = rev) by (apply Z.mod_small; exact Br).
  subst id. unfold siba_parse_core_id. cbn [num_addrspace sonics_rev
    num_cfg_blocks sonics_vendor vendor core_info].
  fold ocp_vendor rev. rewrite Ev, Er.
  repeat split.
  - apply Z.mod_small. lia.
  - intros Hlt. destruct (Z.leb_spec SIBA_IDL_SBREV_2_3 rev); [lia |].
    reflexivity.
  - intros Hge. destruct (Z.leb_spec SIBA_IDL_SBREV_2_3 rev); [| lia].
    reflexivity.
  - intros ->. unfold siba_get_bhnd_mfgid. now rewrite Z.eqb_refl.
  - intros Hne. unfold siba_get_bhnd_mfgid.
    destruct (Z.eqb_spec ocp_vendor OCP_VENDOR_BCM); [contradiction |].
    reflexivity.
Qed.

End IdentityProofs.

Lemma siba_parse_core_id_spec_witness :
  let id := siba_parse_core_id (R:=siba_regs) 0x4243800F 0x10000008 3 0 in
  num_addrspace id = 2 /\ sonics_rev id = 1 /\ num_cfg_blocks id = 2
  /\ sonics_vendor id = 0x4243 /\ vendor (core_info id) = 0x4BF.
Proof.
  pose proof (siba_parse_core_id_spec (R:=siba_regs) 0x4243800F 0x10000008 3 0)
    as H.
  do 5 (specialize (H ltac:(decide_layout))).
  cbv zeta in H. destruct H as (H1 & H2 & _ & H4 & H5 & H6 & _).
  cbv zeta. rewrite H1, H2, H4, H5, H6.
  - repeat split.
  - reflexivity.
  - vm_compute. discriminate.
Defined.

(** ** Address match registers *)

Section AdmatchProofs.
Context {R : sibareg}.

Lemma shl32_1_pow2 (k : Z) : 0 <= k < 32 -> shl32 1 k = Some (2 ^ k).
Proof.
  intros Hk. unfold shl32.
  destruct (Z.leb_spec 0 k); [| lia]. destruct (Z.ltb_spec k 32); [| lia].
  cbn [andb]. f_equal. unfold u32. rewrite Z.shiftl_1_l.
  apply Z.mod_small. split; [apply Z.pow_nonneg; lia |].
  apply Z.pow_lt_mono_r; lia.
Qed.

Lemma SIBA_REG_GET_nonneg (entry mask shift : Z) :
  0 <= entry -> 0 <= SIBA_REG_GET entry mask shift.
Proof.
  intros He. unfold SIBA_REG_GET. apply Z.shiftr_nonneg, Z.land_nonneg.
  now left.
Qed.

(** The size decoded from an interval field whose shift C defines. *)
Lemma adint_size (am mask shift : Z) :
  is_u32 am -> SIBA_REG_GET am mask shift + 1 < 32 ->
  shl32 1 (u32 (SIBA_REG_GET am mask shift + 1))
  = Some (2 ^ (SIBA_REG_GET am mask shift + 1)).
Proof.
  intros [Ha _] Hlt. pose proof (SIBA_REG_GET_nonneg am mask shift Ha).
  rewrite u32_small by (unfold is_u32, UINT32_MAX; lia).
  apply shl32_1_pow2. lia.
Qed.

(** C7.  siba_parse_admatch fails with EINVAL whenever SIBA_AM_ADNEG is
    set, whatever the other bits.  Otherwise the type tag selects the base
    mask and the interval field: for tags 0, 1 and 2 the address is the
    register under the tag's base mask and the size is
    1 << (interval field + 1), that is 2 ^ (interval field + 1), for every
    interval field whose shift count is below 32, the counts for which C
    defines the shift; any other tag fails with EINVAL.  Tag 0 with
    interval field 3 gives size 16. *)
Theorem siba_parse_admatch_spec (am : Z) :
  is_u32 am ->
  let am_type := SIBA_REG_GET am SIBA_AM_TYPE_MASK SIBA_AM_TYPE_SHIFT in
  let adint0 := SIBA_REG_GET am SIBA_AM_ADINT0_MASK SIBA_AM_ADINT0_SHIFT in
  let adint1 := SIBA_REG_GET am SIBA_AM_ADINT1_MASK SIBA_AM_ADINT1_SHIFT in
  let adint2 := SIBA_REG_GET am SIBA_AM_ADINT2_MASK SIBA_AM_ADINT2_SHIFT in
  (Z.land am SIBA_AM_ADNEG <> 0 ->
     siba_parse_admatch am = Some (Err EINVAL)
     /\ error_class_of EINVAL = InvalidArgument)
  /\ (Z.land am SIBA_AM_ADNEG = 0 ->
      (am_type = 0 -> adint0 + 1 < 32 ->
         siba_parse_admatch am
           = Some (Ok (Z.land am SIBA_AM_BASE0_MASK, 2 ^ (adint0 + 1))))
      /\ (am_type = 1 -> adint1 + 1 < 32 ->
         siba_parse_admatch am
           = Some (Ok (Z.land am SIBA_AM_BASE1_MASK, 2 ^ (adint1 + 1))))
      /\ (am_type = 2 -> adint2 + 1 < 32 ->
         siba_parse_admatch am
           = Some (Ok (Z.land am SIBA_AM_BASE2_MASK, 2 ^ (adint2 + 1))))
      /\ (am_type <> 0 -> am_type <> 1 -> am_type <> 2 ->
         siba_parse_admatch am = Some (Err EINVAL))
      /\ (am_type = 0 -> adint0 = 3 ->
         siba_parse_admatch am
           = Some (Ok (Z.land am SIBA_AM_BASE0_MASK, 16)))).
Proof.
  intros Ham am_type adint0 adint1 adint2.
  unfold siba_parse_admatch. fold am_type adint0 adint1 adint2.
  split.
  - intros Hneg.
    destruct (Z.eqb_spec (Z.land am SIBA_AM_ADNEG) 0); [contradiction |].
    split; reflexivity.
  - intros Hclear. rewrite Hclear. cbn [Z.eqb negb].
    repeat apply conj.
    + intros -> Hlt. cbn [Z.eqb]. subst adint0. now rewrite adint_size.
    + intros -> Hlt. cbn [Z.eqb Pos.eqb]. subst adint1.
      now rewrite adint_size.
    + intros -> Hlt. cbn [Z.eqb Pos.eqb]. subst adint2.
      now rewrite adint_size.
    + intros N0 N1 N2.
      destruct (Z.eqb_spec am_type 0); [contradiction |].
      destruct (Z.eqb_spec am_type 1); [contradiction |].
      destruct (Z.eqb_spec am_type 2); [contradiction |].
      reflexivity.
    + intros -> H3. cbn [Z.eqb]. subst adint0.
      rewrite adint_size by (try assumption; lia). now rewrite H3.
Qed.

End AdmatchProofs.

Lemma siba_parse_admatch_spec_witness :
  siba_parse_admatch (R:=siba_regs) 0x18000018 = Some (Ok (0x18000000, 16))
  /\ siba_parse_admatch (R:=siba_regs) 0x18001029
     = Some (Ok (0x18001000, 64))
  /\ siba_parse_admatch (R:=siba_regs) 0x18000818 = Some (Err EINVAL)
  /\ siba_parse_admatch (R:=siba_regs) 0x18000003 = Some (Err EINVAL).
Proof.
  pose proof (siba_parse_admatch_spec (R:=siba_regs) 0x18000018
    ltac:(decide_layout)) as Hok.
  pose proof (siba_parse_admatch_spec (R:=siba_regs) 0x18001029
    ltac:(decide_layout)) as Hone.
  pose proof (siba_parse_admatch_spec (R:=siba_regs) 0x18000818
    ltac:(decide_layout)) as Hneg.
  pose proof (siba_parse_admatch_spec (R:=siba_regs) 0x18000003
    ltac:(decide_layout)) as Htag.
  cbv zeta in Hok, Hone, Hneg, Htag.
  destruct Hok as (_ & Hok), Hone as (_ & Hone), Hneg as (Hneg & _),
    Htag as (_ & Htag).
  destruct (Hok eq_refl) as (_ & _ & _ & _ & H16).
  destruct (Hone eq_refl) as (_ & H64 & _).
  destruct (Htag eq_refl) as (_ & _ & _ & H3 & _).
  repeat apply conj.
  - exact (H16 eq_refl eq_refl).
  - exact (H64 eq_refl ltac:(decide_layout)).
  - apply Hneg. vm_compute. discriminate.
  - apply H3; vm_compute; discriminate.
Defined.

(** ** Appending a region to a device info *)

Section AppendProofs.
Context {R : sibareg} {K : rman} {B : bhnd_bus}.

Lemma overflow_check (base size : Z) :
  is_u32 base -> is_u32 size -> 0 < size ->
  (u32 (UINT32_MAX - u32 (size - 1)) <? base) = (UINT32_MAX <? base + (size - 1)).
Proof.
  unfold is_u32, UINT32_MAX. intros Hb Hs Hpos.
  rewrite (u32_small (size - 1)) by (unfold is_u32, UINT32_MAX; lia).
  rewrite u32_small by (unfold is_u32, UINT32_MAX; lia).
  destruct (Z.ltb_spec (4294967295 - (size - 1)) base),
    (Z.ltb_spec 4294967295 (base + (size - 1))); lia || reflexivity.
Qed.

Lemma rman_res_small (x : Z) :
  32 <= rman_res_bits -> is_u32 x -> rman_res x = x.
Proof.
  unfold is_u32, UINT32_MAX, rman_res. intros Hbits Hx.
  apply Z.mod_small.
  assert (2 ^ 32 <= 2 ^ rman_res_bits) by (apply Z.pow_le_mono_r; lia).
  lia.
Qed.

(** Every failure of siba_append_dinfo_region leaves the device info as it
    was: no address space slot is written, no resource is added. *)
Lemma siba_append_dinfo_region_failure (dinfo : siba_devinfo)
    (addridx base size bus_reserved : Z) (e : errno) (dinfo' : siba_devinfo) :
  siba_append_dinfo_region dinfo addridx base size bus_reserved = (Err e, dinfo') ->
  dinfo' = dinfo.
Proof.
  unfold siba_append_dinfo_region.
  repeat match goal with
         | |- context [if ?c then _ else _] => destruct c
         end; cbn; intros Heq; [inversion Heq; reflexivity .. | discriminate].
Qed.

(** C2 (amended).  siba_append_dinfo_region fails with ERANGE, the
    out-of-range class, whenever bus_reserved exceeds size, a zero size
    included, so size = 0x10 with bus_reserved = 0x20 is out of range; it
    fails with EINVAL, the invalid-argument class, for a zero size with no
    bytes reserved. *)
Theorem siba_append_dinfo_region_reserved (dinfo : siba_devinfo)
    (addridx base size bus_reserved : Z) :
  (size < bus_reserved ->
     siba_append_dinfo_region dinfo addridx base size bus_reserved
       = (Err ERANGE, dinfo)
     /\ error_class_of ERANGE = OutOfRange)
  /\ (size = 0 -> bus_reserved = 0 ->
     siba_append_dinfo_region dinfo addridx base size bus_reserved
       = (Err EINVAL, dinfo)
     /\ error_class_of EINVAL = InvalidArgument)
  /\ (size = 16 -> bus_reserved = 32 ->
     siba_append_dinfo_region dinfo addridx base size bus_reserved
       = (Err ERANGE, dinfo)).
Proof.
  assert (Hlt : size < bus_reserved ->
     siba_append_dinfo_region dinfo addridx base size bus_reserved
       = (Err ERANGE, dinfo)).
  { intros H. unfold siba_append_dinfo_region.
    destruct (_ && _); [reflexivity |].
    destruct (Z.ltb_spec size bus_reserved); [reflexivity | lia]. }
  split; [| split].
  - intros H. split; [now apply Hlt | reflexivity].
  - intros -> ->. split; reflexivity.
  - intros -> ->. apply Hlt. lia.
Qed.

(** C3 (amended).  siba_append_dinfo_region fails with ERANGE, the
    out-of-range class, when base + (size - 1) exceeds the 32-bit range;
    when the size, overflow and reservation checks pass and addridx is not
    below SIBA_MAX_ADDRSPACE it fails with EINVAL, the invalid-argument
    class; and whenever it fails, whatever the error, the device info is
    returned unchanged: no slot written, no resource registered. *)
Theorem siba_append_dinfo_region_errors (dinfo : siba_devinfo)
    (addridx base size bus_reserved : Z) :
  is_u32 base -> is_u32 size ->
  (0 < size -> UINT32_MAX < base + (size - 1) ->
     siba_append_dinfo_region dinfo addridx base size bus_reserved
       = (Err ERANGE, dinfo)
     /\ error_class_of ERANGE = OutOfRange)
  /\ (size <> 0 -> base + (size - 1) <= UINT32_MAX -> bus_reserved <= size ->
      SIBA_MAX_ADDRSPACE <= addridx ->
     siba_append_dinfo_region dinfo addridx base size bus_reserved
       = (Err EINVAL, dinfo)
     /\ error_class_of EINVAL = InvalidArgument)
  /\ (forall e dinfo',
     siba_append_dinfo_region dinfo addridx base size bus_reserved
       = (Err e, dinfo') ->
     dinfo' = dinfo
     /\ resources dinfo' = resources dinfo
     /\ addrspace dinfo' = addrspace dinfo).
Proof.
  intros Hb Hs. split; [| split].
  - intros Hpos Hov. split; [| reflexivity].
    unfold siba_append_dinfo_region.
    rewrite overflow_check by assumption.
    destruct (Z.ltb_spec 0 size); [| lia].
    destruct (Z.ltb_spec UINT32_MAX (base + (size - 1))); [| lia].
    reflexivity.
  - intros Hnz Hfit Hres Hidx. split; [| reflexivity].
    assert (0 < size) by (unfold is_u32 in Hs; lia).
    unfold siba_append_dinfo_region.
    rewrite overflow_check by assumption.
    destruct (Z.ltb_spec 0 size); [| lia].
    destruct (Z.ltb_spec UINT32_MAX (base + (size - 1))); [lia |].
    destruct (Z.ltb_spec size bus_reserved); [lia |].
    destruct (Z.eqb_spec size 0); [lia |].
    destruct (Z.leb_spec SIBA_MAX_ADDRSPACE addridx); [| lia].
    reflexivity.
  - intros e dinfo' Hfail.
    apply siba_append_dinfo_region_failure in Hfail. now subst.
Qed.

(** C4 (amended).  When the four checks pass, siba_append_dinfo_region
    returns 0, stores base, size and bus_reserved in slot addridx together
    with the identifier the resource list returned, leaves the other slots
    alone, and adds exactly one SYS_RES_MEMORY entry of size - bus_reserved
    bytes that starts at base.  The entry ends at
    base + (size - bus_reserved) - 1 whenever some byte is left unreserved
    or base is above 0; for an empty region at base 0 the end, computed in
    rman_res_t, is the largest rman_res_t. *)
Theorem siba_append_dinfo_region_ok (dinfo : siba_devinfo)
    (addridx base size bus_reserved : Z) :
  is_u32 base -> is_u32 size -> is_u32 bus_reserved -> is_u8 addridx ->
  32 <= rman_res_bits ->
  dinfo_wf dinfo ->
  size <> 0 -> base + (size - 1) <= UINT32_MAX -> bus_reserved <= size ->
  addridx < SIBA_MAX_ADDRSPACE ->
  let rid := rl_next_rid (resources dinfo) SYS_RES_MEMORY in
  let r_size := size - bus_reserved in
  let r_end := rman_res (base + r_size - 1) in
  let out := siba_append_dinfo_region dinfo addridx base size bus_reserved in
  fst out = Ok tt
  /\ addrspace (snd out) !! Z.to_nat addridx
       = Some {| sa_base := base; sa_size := size; sa_rid := rid;
                 sa_bus_reserved := bus_reserved |}
  /\ (forall j : nat, j <> Z.to_nat addridx ->
        addrspace (snd out) !! j = addrspace dinfo !! j)
  /\ resources (snd out)
       = resources dinfo ++
         [ {| rle_type := SYS_RES_MEMORY; rle_rid := rid; rle_start := base;
              rle_end := r_end; rle_count := r_size |} ]
  /\ (bus_reserved < size \/ 0 < base -> r_end = base + r_size - 1)
  /\ (bus_reserved = size -> base = 0 -> r_end = 2 ^ rman_res_bits - 1)
  /\ core_id (snd out) = core_id dinfo
  /\ cfg (snd out) = cfg dinfo
  /\ cfg_rid (snd out) = cfg_rid dinfo
  /\ dinfo_wf (snd out).
Proof.
  intros Hb Hs Hr Hi Hbits (Hla & Hlc & Hlr) Hnz Hfit Hres Hidx
    rid r_size r_end out.
  assert (Hpos : 0 < size) by (unfold is_u32 in Hs; lia).
  assert (Hrs : is_u32 r_size)
    by (unfold is_u32, UINT32_MAX in *; subst r_size; lia).
  assert (Eend : rman_res (base + rman_res (rman_res (u32 r_size) - 1))
                 = r_end).
  { rewrite (u32_small r_size), (rman_res_small r_size) by assumption.
    subst r_end. unfold rman_res.
    rewrite Z.add_mod_idemp_r by (apply Z.pow_nonzero; lia).
    f_equal. lia. }
  subst out. unfold siba_append_dinfo_region.
  rewrite overflow_check by assumption.
  destruct (Z.ltb_spec 0 size); [| lia].
  destruct (Z.ltb_spec UINT32_MAX (base + (size - 1))); [lia |].
  destruct (Z.ltb_spec size bus_reserved); [lia |].
  destruct (Z.eqb_spec size 0); [lia |].
  destruct (Z.leb_spec SIBA_MAX_ADDRSPACE addridx); [lia |].
  cbn -[rman_res u32]. fold r_size. rewrite Eend.
  rewrite (u32_small r_size), (rman_res_small r_size), (rman_res_small base)
    by assumption.
  fold rid.
  assert (Hlen : (Z.to_nat addridx < length (addrspace dinfo))%nat)
    by (unfold is_u8 in Hi; lia).
  unfold dinfo_wf. repeat apply conj; cbn [fst snd addrspace resources core_id
    cfg cfg_rid]; try reflexivity.
  - now apply list_lookup_insert_eq.
  - intros j Hj. now apply list_lookup_insert_ne.
  - intros Hcase. subst r_end. apply rman_res_small; [assumption |].
    unfold is_u32, UINT32_MAX in *. subst r_size. lia.
  - intros Heq Hzero. subst r_end r_size. subst base bus_reserved.
    unfold rman_res.
    assert (Hm : 0 < 2 ^ rman_res_bits) by (apply Z.pow_pos_nonneg; lia).
    replace (0 + (size - size) - 1)
      with (2 ^ rman_res_bits - 1 + -1 * 2 ^ rman_res_bits) by lia.
    rewrite Z.mod_add by lia. apply Z.mod_small. lia.
  - now rewrite length_insert.
  - assumption.
  - assumption.
Qed.

End AppendProofs.

Lemma siba_append_dinfo_region_reserved_witness :
  siba_append_dinfo_region (R:=siba_regs) (K:=counting_rman) unmapped_dinfo
    0 0 0x10 0x20 = (Err ERANGE, unmapped_dinfo)
  /\ siba_append_dinfo_region (R:=siba_regs) (K:=counting_rman) unmapped_dinfo
       0 0 0 7 = (Err ERANGE, unmapped_dinfo)
  /\ siba_append_dinfo_region (R:=siba_regs) (K:=counting_rman) unmapped_dinfo
       0 0 0 0 = (Err EINVAL, unmapped_dinfo).
Proof.
  split; [| split].
  - exact (proj2 (proj2 (siba_append_dinfo_region_reserved (R:=siba_regs)
      (K:=counting_rman) unmapped_dinfo 0 0 0x10 0x20)) eq_refl eq_refl).
  - apply (proj1 (siba_append_dinfo_region_reserved (R:=siba_regs)
      (K:=counting_rman) unmapped_dinfo 0 0 0 7)). lia.
  - apply (proj1 (proj2 (siba_append_dinfo_region_reserved (R:=siba_regs)
      (K:=counting_rman) unmapped_dinfo 0 0 0 0))); reflexivity.
Defined.

(** C2 (counterexample).  With size = 0x10 and bus_reserved = 0x20, and with
    size = 0 and bus_reserved = 1, the error is ERANGE, which is not in the
    invalid-argument class. *)
Lemma siba_append_dinfo_region_reserved_not_einval :
  siba_append_dinfo_region (R:=siba_regs) (K:=counting_rman) unmapped_dinfo
    0 0 0x10 0x20 = (Err ERANGE, unmapped_dinfo)
  /\ siba_append_dinfo_region (R:=siba_regs) (K:=counting_rman) unmapped_dinfo
       0 0 0 1 = (Err ERANGE, unmapped_dinfo)
  /\ error_class_of ERANGE <> InvalidArgument.
Proof. split; [reflexivity | split; [reflexivity | discriminate]]. Qed.

Lemma siba_append_dinfo_region_errors_witness :
  siba_append_dinfo_region (R:=siba_regs) (K:=counting_rman) unmapped_dinfo
    0 0xFFFFFFFF 2 0 = (Err ERANGE, unmapped_dinfo)
  /\ siba_append_dinfo_region (R:=siba_regs) (K:=counting_rman) unmapped_dinfo
       4 0x1000 0x1000 0 = (Err EINVAL, unmapped_dinfo).
Proof.
  pose proof (siba_append_dinfo_region_errors (R:=siba_regs)
    (K:=counting_rman) unmapped_dinfo 0 0xFFFFFFFF 2 0) as Hov.
  pose proof (siba_append_dinfo_region_errors (R:=siba_regs)
    (K:=counting_rman) unmapped_dinfo 4 0x1000 0x1000 0) as Hidx.
  do 2 (specialize (Hov ltac:(decide_layout))).
  do 2 (specialize (Hidx ltac:(decide_layout))).
  destruct Hov as (Hov & _), Hidx as (_ & Hidx & _).
  split; [apply Hov | apply Hidx]; decide_layout.
Defined.

(** C3 (counterexample).  With addridx = 4, the capacity, and base, size and
    bus_reserved passing the other checks, the error is EINVAL, which is not
    in the out-of-range class. *)
Lemma siba_append_dinfo_region_index_not_erange :
  siba_append_dinfo_region (R:=siba_regs) (K:=counting_rman) unmapped_dinfo
    4 0x1000 0x1000 0 = (Err EINVAL, unmapped_dinfo)
  /\ SIBA_MAX_ADDRSPACE (sibareg:=siba_regs) = 4
  /\ error_class_of EINVAL <> OutOfRange.
Proof. split; [reflexivity | split; [reflexivity | discriminate]]. Qed.

(** C4 (counterexample).  An empty region at base 0 (size = bus_reserved =
    0x10) passes the four checks; the entry registered for it ends at
    2^64 - 1, the largest value of a 64-bit rman_res_t, not at
    0 + (0x10 - 0x10) - 1 = -1. *)
Lemma siba_append_dinfo_region_empty_at_zero :
  fst (siba_append_dinfo_region (R:=siba_regs) (K:=counting_rman)
         unmapped_dinfo 0 0 0x10 0x10) = Ok tt
  /\ resources (snd (siba_append_dinfo_region (R:=siba_regs)
                       (K:=counting_rman) unmapped_dinfo 0 0 0x10 0x10))
     = [ {| rle_type := 3; rle_rid := 0; rle_start := 0;
            rle_end := 18446744073709551615; rle_count := 0 |} ]
  /\ 0 + (0x10 - 0x10) - 1 = -1
  /\ 18446744073709551615 <> 0 + (0x10 - 0x10) - 1.
Proof. repeat apply conj; try reflexivity. discriminate. Qed.

Lemma siba_append_dinfo_region_ok_witness :
  let out :=
    siba_append_dinfo_region (R:=siba_regs) (K:=counting_rman) unmapped_dinfo
      0 0x1000 0x1000 0 in
  fst out = Ok tt
  /\ addrspace (snd out) !! 0%nat
       = Some {| sa_base := 0x1000; sa_size := 0x1000; sa_rid := 0;
                 sa_bus_reserved := 0 |}
  /\ resources (snd out)
       = [ {| rle_type := 3; rle_rid := 0; rle_start := 0x1000;
              rle_end := 0x1FFF; rle_count := 0x1000 |} ].
Proof.
  pose proof (siba_append_dinfo_region_ok (R:=siba_regs) (K:=counting_rman)
    unmapped_dinfo 0 0x1000 0x1000 0) as H.
  do 10 (specialize (H ltac:(decide_layout))).
  cbv zeta in H. destruct H as (H1 & H2 & _ & H4 & _).
  cbv zeta. split; [exact H1 | split; [exact H2 | exact H4]].
Defined.

(** ** The polling loops *)

Section LoopProofs.
Context {B : bhnd_bus}.

Lemma iterations_step (bound i : Z) :
  i < bound -> iterations bound i = S (iterations bound (i + 10)).
Proof.
  intros Hlt. unfold iterations.
  replace (bound - i + 9) with ((bound - (i + 10) + 9) + 1 * 10) by lia.
  rewrite Z.div_add by lia.
  pose proof (Z.div_pos (bound - (i + 10) + 9) 10). lia.
Qed.

Lemma iterations_done (bound i : Z) : bound <= i -> iterations bound i = O.
Proof.
  intros Hge. unfold iterations.
  assert ((bound - i + 9) / 10 <= 0); [| lia].
  assert ((bound - i + 9) / 10 < 1); [| lia].
  apply Z.div_lt_upper_bound; lia.
Qed.

Lemma for_step10_step {A : Type} (bound : Z) (body : M (option A)) (i : Z)
    (w : world) :
  for_step10 bound body i w =
  if i <? bound then
    match body w with
    | (Some a, w') => (Some a, w')
    | (None, w') => for_step10 bound body (i + 10) w'
    end
  else (None, w).
Proof.
  unfold for_step10.
  destruct (Z.ltb_spec i bound) as [Hlt | Hge].
  - rewrite (iterations_step _ _ Hlt). cbn [for_step10_from].
    destruct (Z.ltb_spec i bound); [reflexivity | lia].
  - rewrite (iterations_done _ _ Hge). cbn [for_step10_from].
    destruct (Z.ltb_spec i bound); [lia | reflexivity].
Qed.

(** The loop returns what its body returns the first time the body returns. *)
Lemma for_step10_hit {A : Type} (body : M (option A)) (a : A) (k : nat) :
  forall (bound i : Z) (w : world),
  (k < iterations bound i)%nat ->
  (forall j, (j < k)%nat -> fst (body (after_runs body j w)) = None) ->
  fst (body (after_runs body k w)) = Some a ->
  for_step10 bound body i w = (Some a, snd (body (after_runs body k w))).
Proof.
  induction k as [| k IH]; intros bound i w Hk Hmiss Hhit.
  - rewrite for_step10_step.
    destruct (Z.ltb_spec i bound);
      [| rewrite iterations_done in Hk by assumption; lia].
    cbn in Hhit |- *. destruct (body w) as [[a' |] w']; cbn in *.
    + congruence.
    + discriminate.
  - rewrite for_step10_step.
    destruct (Z.ltb_spec i bound) as [Hlt |];
      [| rewrite iterations_done in Hk by assumption; lia].
    rewrite (iterations_step _ _ Hlt) in Hk.
    pose proof (Hmiss O ltac:(lia)) as H0. cbn in H0, Hhit |- *.
    destruct (body w) as [[a' |] w'] eqn:Eb; cbn in *; [discriminate |].
    apply IH; [lia | | assumption].
    intros j Hj. specialize (Hmiss (S j) ltac:(lia)). cbn in Hmiss.
    now rewrite Eb in Hmiss.
Qed.

(** The loop falls through after [iterations] runs when the body never
    returns. *)
Lemma for_step10_miss {A : Type} (body : M (option A)) (n : nat) :
  forall (bound i : Z) (w : world),
  iterations bound i = n ->
  (forall j, (j < n)%nat -> fst (body (after_runs body j w)) = None) ->
  for_step10 bound body i w = (None, after_runs body n w).
Proof.
  induction n as [| n IH]; intros bound i w Hn Hmiss.
  - rewrite for_step10_step.
    destruct (Z.ltb_spec i bound) as [Hlt |]; [| reflexivity].
    rewrite (iterations_step _ _ Hlt) in Hn. discriminate.
  - rewrite for_step10_step.
    destruct (Z.ltb_spec i bound) as [Hlt |];
      [| rewrite iterations_done in Hn by assumption; discriminate].
    rewrite (iterations_step _ _ Hlt) in Hn.
    pose proof (Hmiss O ltac:(lia)) as H0. cbn in H0 |- *.
    destruct (body w) as [[a' |] w'] eqn:Eb; cbn in *; [discriminate |].
    apply IH; [congruence |].
    intros j Hj. specialize (Hmiss (S j) ltac:(lia)). cbn in Hmiss.
    now rewrite Eb in Hmiss.
Qed.

(** A count that each run of the body raises by at most [c] is raised by at
    most [c] per iteration by the loop. *)
Lemma for_step10_bounded {A : Type} (body : M (option A)) (f : world -> nat)
    (c : nat) :
  (forall w, (f (snd (body w)) <= f w + c)%nat) ->
  forall (n : nat) (bound i : Z) (w : world),
  iterations bound i = n ->
  (f (snd (for_step10 bound body i w)) <= f w + c * n)%nat.
Proof.
  intros Hbody. induction n as [| n IH]; intros bound i w Hn.
  - rewrite for_step10_step.
    destruct (Z.ltb_spec i bound) as [Hlt |]; [| cbn; lia].
    rewrite (iterations_step _ _ Hlt) in Hn. discriminate.
  - rewrite for_step10_step.
    destruct (Z.ltb_spec i bound) as [Hlt |];
      [| rewrite iterations_done in Hn by assumption; discriminate].
    rewrite (iterations_step _ _ Hlt) in Hn.
    specialize (Hbody w).
    destruct (body w) as [[a' |] w'] eqn:Eb; cbn in *; [lia |].
    specialize (IH bound (i + 10) w' ltac:(congruence)). lia.
Qed.

End LoopProofs.

(** ** Waiting for the target to leave the busy state *)

Section WaitProofs.
Context {R : sibareg} {B : bhnd_bus}.

Lemma bhnd_bus_read_4_trace (r : bhnd_resource) (reg : Z) (w : world) :
  trace (snd (bhnd_bus_read_4 r reg w))
  = EvRead r reg (fst (bhnd_bus_read_4 r reg w)) :: trace w.
Proof.
  unfold bhnd_bus_read_4. destruct (hw_read_4 r reg (dev w)). reflexivity.
Qed.

Lemma busy_poll_busy (r : bhnd_resource) (w : world) :
  busy_at r 0 w = true ->
  busy_poll r w
  = (None, snd (DELAY 10 (snd (bhnd_bus_read_4 r SIBA_CFG0_TMSTATEHIGH w)))).
Proof.
  unfold busy_at, busy_poll, bind. cbn [after_polls].
  destruct (bhnd_bus_read_4 r SIBA_CFG0_TMSTATEHIGH w) as [v w'].
  cbn [fst snd]. destruct (Z.land v SIBA_TMH_BUSY =? 0); [discriminate |].
  reflexivity.
Qed.

Lemma busy_poll_clear (r : bhnd_resource) (w : world) :
  busy_at r 0 w = false ->
  busy_poll r w
  = (Some (Ok tt), snd (bhnd_bus_read_4 r SIBA_CFG0_TMSTATEHIGH w)).
Proof.
  unfold busy_at, busy_poll, bind. cbn [after_polls].
  destruct (bhnd_bus_read_4 r SIBA_CFG0_TMSTATEHIGH w) as [v w'].
  cbn [fst snd]. destruct (Z.land v SIBA_TMH_BUSY =? 0); [| discriminate].
  reflexivity.
Qed.

Lemma busy_at_S (r : bhnd_resource) (k : nat) (w : world) :
  busy_at r (S k) w
  = busy_at r k
      (snd (DELAY 10 (snd (bhnd_bus_read_4 r SIBA_CFG0_TMSTATEHIGH w)))).
Proof. reflexivity. Qed.

Lemma after_runs_polls (r : bhnd_resource) (k : nat) :
  forall w : world,
  (forall j, (j < k)%nat -> busy_at r j w = true) ->
  after_runs (busy_poll r) k w = after_polls r k w.
Proof.
  induction k as [| k IH]; intros w Hbusy; [reflexivity |].
  cbn [after_runs after_polls].
  rewrite busy_poll_busy by (apply Hbusy; lia). cbn [snd].
  apply IH. intros j Hj. rewrite <- busy_at_S. apply Hbusy. lia.
Qed.

Lemma after_polls_counts (r : bhnd_resource) (k : nat) :
  forall w : world,
  n_reads (trace (after_polls r k w)) = (n_reads (trace w) + k)%nat
  /\ n_writes (trace (after_polls r k w)) = n_writes (trace w)
  /\ n_printfs (trace (after_polls r k w)) = n_printfs (trace w).
Proof.
  induction k as [| k IH]; intros w; cbn [after_polls].
  - repeat split; lia.
  - destruct (IH (snd (DELAY 10
      (snd (bhnd_bus_read_4 r SIBA_CFG0_TMSTATEHIGH w))))) as (H1 & H2 & H3).
    rewrite H1, H2, H3. cbn [DELAY snd trace n_reads n_writes n_printfs].
    rewrite bhnd_bus_read_4_trace. cbn [n_reads n_writes n_printfs].
    repeat split; lia.
Qed.

Lemma busy_poll_counts (r : bhnd_resource) (w : world) :
  n_reads (trace (snd (busy_poll r w))) = S (n_reads (trace w))
  /\ n_writes (trace (snd (busy_poll r w))) = n_writes (trace w).
Proof.
  unfold busy_poll, bind.
  pose proof (bhnd_bus_read_4_trace r SIBA_CFG0_TMSTATEHIGH w) as Ht.
  destruct (bhnd_bus_read_4 r SIBA_CFG0_TMSTATEHIGH w) as [v w'].
  cbn [fst snd] in Ht.
  destruct (Z.land v SIBA_TMH_BUSY =? 0);
    cbn [ret DELAY snd trace n_reads n_writes]; rewrite Ht;
    cbn [n_reads n_writes]; auto.
Qed.

Lemma busy_poll_hit (r : bhnd_resource) (k : nat) (w : world) :
  (forall j, (j < k)%nat -> busy_at r j w = true) ->
  forall j, (j < k)%nat ->
  fst (busy_poll r (after_runs (busy_poll r) j w)) = None.
Proof.
  intros Hbusy j Hj.
  rewrite after_runs_polls by (intros; apply Hbusy; lia).
  rewrite busy_poll_busy; [reflexivity |].
  specialize (Hbusy j Hj). unfold busy_at in *. exact Hbusy.
Qed.


(** C6 (amended).  siba_wait_target_busy fails with ENODEV when the first
    config window is unmapped.  Otherwise it polls SIBA_CFG0_TMSTATEHIGH at
    most once per step of 10 microseconds the timeout begins, that is
    (usec + 9) / 10 times, which is usec / 10 when usec is a multiple of 10;
    it returns 0 at the first poll that finds SIBA_TMH_BUSY clear; and when
    every poll finds it set, it reports the timeout with device_printf and
    fails with ETIMEDOUT.  The loop counter is an int: usec is taken small
    enough for it not to overflow. *)
Theorem siba_wait_target_busy_spec (dinfo : siba_devinfo) (usec : Z)
    (w : world) :
  usec <= INT_MAX - 9 ->
  let polls := iterations usec 0 in
  let out := siba_wait_target_busy dinfo usec w in
  (cfg_at dinfo 0 = None ->
     out = (Err ENODEV, w) /\ error_class_of ENODEV = NotFound)
  /\ (forall r, cfg_at dinfo 0 = Some r ->
      (n_reads (trace (snd out)) <= n_reads (trace w) + polls)%nat
      /\ (forall k, (k < polls)%nat ->
           (forall j, (j < k)%nat -> busy_at r j w = true) ->
           busy_at r k w = false ->
           out = (Ok tt, snd (bhnd_bus_read_4 r SIBA_CFG0_TMSTATEHIGH
                               (after_polls r k w)))
           /\ n_reads (trace (snd out)) = (n_reads (trace w) + k + 1)%nat
           /\ n_printfs (trace (snd out)) = n_printfs (trace w))
      /\ ((forall j, (j < polls)%nat -> busy_at r j w = true) ->
           out = (Err ETIMEDOUT,
                  snd (device_printf "SIBA_TMH_BUSY wait timeout\n"
                         (after_polls r polls w)))
           /\ n_reads (trace (snd out)) = (n_reads (trace w) + polls)%nat
           /\ n_printfs (trace (snd out)) = S (n_printfs (trace w))
           /\ error_class_of ETIMEDOUT = TimedOut))
  /\ (0 <= usec -> Z.of_nat polls = (usec + 9) / 10)
  /\ (0 <= usec -> usec mod 10 = 0 -> Z.of_nat polls = usec / 10)
  /\ (usec <= 0 -> polls = O).
Proof.
  intros _ polls out. subst out. unfold siba_wait_target_busy.
  split; [| split; [| split; [| split]]].
  - intros ->. split; reflexivity.
  - intros r ->. unfold bind. split; [| split].
    + assert (Hbody : forall w0,
        (n_reads (trace (snd (busy_poll r w0))) <= n_reads (trace w0) + 1)%nat)
        by (intros w0; rewrite (proj1 (busy_poll_counts r w0)); lia).
      pose proof (for_step10_bounded (busy_poll r)
        (fun w0 => n_reads (trace w0)) 1 Hbody _ usec 0 w eq_refl) as Hloop.
      fold polls in Hloop.
      destruct (for_step10 usec (busy_poll r) 0 w) as [[res |] w'];
        cbn in *; lia.
    + intros k Hk Hbusy Hclear.
      assert (Hpoll : busy_poll r (after_polls r k w)
                = (Some (Ok tt),
                   snd (bhnd_bus_read_4 r SIBA_CFG0_TMSTATEHIGH
                          (after_polls r k w)))).
      { apply busy_poll_clear. unfold busy_at in *. exact Hclear. }
      rewrite (for_step10_hit (busy_poll r) (Ok tt) k usec 0 w Hk).
      * rewrite (after_runs_polls r k w Hbusy), Hpoll. cbn [fst snd ret].
        rewrite bhnd_bus_read_4_trace. cbn [n_reads n_printfs].
        destruct (after_polls_counts r k w) as (H1 & _ & H3).
        rewrite H1, H3. repeat split; lia.
      * now apply busy_poll_hit.
      * rewrite (after_runs_polls r k w Hbusy), Hpoll. reflexivity.
    + intros Hbusy.
      rewrite (for_step10_miss (busy_poll r) polls usec 0 w eq_refl)
        by now apply busy_poll_hit.
      rewrite (after_runs_polls r polls w Hbusy).
      cbn [device_printf ret fst snd trace n_reads n_printfs].
      destruct (after_polls_counts r polls w) as (H1 & _ & H3).
      rewrite H1, H3. repeat split.
  - intros Hpos. subst polls. unfold iterations.
    rewrite Z2Nat.id; [f_equal; lia | apply Z.div_pos; lia].
  - intros Hpos Hmod. subst polls. unfold iterations.
    rewrite Z2Nat.id by (apply Z.div_pos; lia).
    replace (usec - 0 + 9) with (usec + 9) by lia.
    rewrite (Z.div_mod usec 10) at 1 by lia. rewrite Hmod.
    replace (10 * (usec / 10) + 0 + 9) with (9 + (usec / 10) * 10) by lia.
    rewrite Z.div_add by lia. reflexivity.
  - intros Hneg. subst polls. now apply iterations_done.
Qed.

End WaitProofs.

(** ** Writing the target state *)

Section WriteProofs.
Context {R : sibareg} {B : bhnd_bus}.

Lemma bhnd_bus_read_4_writes (r : bhnd_resource) (reg : Z) (w : world) :
  n_writes (trace (snd (bhnd_bus_read_4 r reg w))) = n_writes (trace w).
Proof. rewrite bhnd_bus_read_4_trace. reflexivity. Qed.

(** One read-modify-write-verify performs exactly one register write. *)
Lemma write_verify_writes (r : bhnd_resource) (reg value mask : Z) (w : world) :
  n_writes (trace (snd (write_verify r reg value mask w)))
  = S (n_writes (trace w)).
Proof.
  unfold write_verify, bind.
  pose proof (bhnd_bus_read_4_writes r reg w) as H1.
  destruct (bhnd_bus_read_4 r reg w) as [v1 w1]. cbn [snd] in H1.
  cbn [bhnd_bus_write_4 DELAY ret].
  set (w2 := {| dev := hw_write_4 r reg _ (dev w1); trace := _ |}).
  pose proof (bhnd_bus_read_4_writes r reg w2) as H2.
  destruct (bhnd_bus_read_4 r reg w2) as [v2 w3]. cbn [snd] in H2.
  set (w4 := {| dev := hw_delay 1 (dev w3); trace := _ |}).
  pose proof (bhnd_bus_read_4_writes r reg w4) as H3.
  destruct (bhnd_bus_read_4 r reg w4) as [v3 w5]. cbn [ret snd] in H3 |- *.
  rewrite H3. subst w4. cbn [trace n_writes]. rewrite H2. subst w2.
  cbn [trace n_writes]. now rewrite H1.
Qed.

Lemma write_attempt_miss (dinfo : siba_devinfo) (r : bhnd_resource)
    (reg value mask : Z) (w : world) :
  fst (write_verify r reg value mask w) = false ->
  write_attempt dinfo r reg value mask w
  = (None, snd (DELAY 10 (snd (write_verify r reg value mask w)))).
Proof.
  unfold write_attempt, bind at 1.
  destruct (write_verify r reg value mask w) as [latched w'].
  cbn [fst snd]. intros ->. reflexivity.
Qed.

Lemma write_attempt_hit (dinfo : siba_devinfo) (r : bhnd_resource)
    (reg value mask : Z) (w : world) :
  fst (write_verify r reg value mask w) = true ->
  write_attempt dinfo r reg value mask w
  = (Some (fst (siba_wait_target_busy dinfo 100000
                  (snd (write_verify r reg value mask w)))),
     snd (siba_wait_target_busy dinfo 100000
            (snd (write_verify r reg value mask w)))).
Proof.
  unfold write_attempt, bind at 1.
  destruct (write_verify r reg value mask w) as [latched w'].
  cbn [fst snd]. intros ->. unfold bind, ret.
  destruct (siba_wait_target_busy dinfo 100000 w'). reflexivity.
Qed.


Lemma after_runs_retries (dinfo : siba_devinfo) (r : bhnd_resource)
    (reg value mask : Z) (k : nat) :
  forall w : world,
  (forall j, (j < k)%nat -> latched_at r reg value mask j w = false) ->
  after_runs (write_attempt dinfo r reg value mask) k w
  = after_retries r reg value mask k w.
Proof.
  induction k as [| k IH]; intros w Hmiss; [reflexivity |].
  cbn [after_runs after_retries].
  rewrite write_attempt_miss by (apply (Hmiss O); lia). cbn [snd].
  apply IH. intros j Hj. apply (Hmiss (S j)). lia.
Qed.


Lemma write_attempt_misses (dinfo : siba_devinfo) (r : bhnd_resource)
    (reg value mask : Z) (k : nat) (w : world) :
  (forall j, (j < k)%nat -> latched_at r reg value mask j w = false) ->
  forall j, (j < k)%nat ->
  fst (write_attempt dinfo r reg value mask
         (after_runs (write_attempt dinfo r reg value mask) j w)) = None.
Proof.
  intros Hmiss j Hj.
  rewrite after_runs_retries by (intros; apply Hmiss; lia).
  rewrite write_attempt_miss; [reflexivity | now apply Hmiss].
Qed.

(** Past its two checks, siba_write_target_state returns what
    siba_wait_target_busy returns at the first of its 30 iterations whose
    read-back matches. *)
Lemma write_loop_hit (dinfo : siba_devinfo) (r : bhnd_resource)
    (reg value mask : Z) (w : world) :
  cfg_at dinfo 0 = Some r -> reg <= SIBA_CFG_SIZE - 4 ->
  forall k, (k < 30)%nat ->
  (forall j, (j < k)%nat -> latched_at r reg value mask j w = false) ->
  latched_at r reg value mask k w = true ->
  siba_write_target_state dinfo reg value mask w
  = siba_wait_target_busy dinfo 100000
      (snd (write_verify r reg value mask (after_retries r reg value mask k w))).
Proof.
  intros Hcfg Hreg k Hk Hmiss Hhit. unfold siba_write_target_state.
  rewrite Hcfg. destruct (Z.ltb_spec (SIBA_CFG_SIZE - 4) reg); [lia |].
  unfold bind. unfold latched_at in Hhit.
  pose proof (write_attempt_hit dinfo r reg value mask _ Hhit) as Hbody.
  rewrite (for_step10_hit (write_attempt dinfo r reg value mask)
    (fst (siba_wait_target_busy dinfo 100000
            (snd (write_verify r reg value mask
                    (after_retries r reg value mask k w)))))
    k 300 0 w).
  - rewrite (after_runs_retries dinfo r reg value mask k w Hmiss), Hbody.
    cbn [fst snd]. unfold ret. now rewrite <- surjective_pairing.
  - exact Hk.
  - now apply write_attempt_misses.
  - rewrite (after_runs_retries dinfo r reg value mask k w Hmiss), Hbody.
    reflexivity.
Qed.


(** C10.  With a mapped config window, an in-range register offset and
    mask = 0, the first read-back matches whatever the register holds and
    whatever the value is: siba_write_target_state performs one
    read-modify-write and returns what siba_wait_target_busy returns, so no
    ETIMEDOUT comes from the write phase. *)
Theorem siba_write_target_state_mask0 (dinfo : siba_devinfo)
    (r : bhnd_resource) (reg value : Z) (w : world) :
  cfg_at dinfo 0 = Some r -> reg <= SIBA_CFG_SIZE - 4 ->
  latched_at r reg value 0 0 w = true
  /\ siba_write_target_state dinfo reg value 0 w
     = siba_wait_target_busy dinfo 100000 (snd (write_verify r reg value 0 w))
  /\ n_writes (trace (snd (write_verify r reg value 0 w)))
     = S (n_writes (trace w)).
Proof.
  intros Hcfg Hreg.
  assert (Hl : latched_at r reg value 0 0 w = true).
  { unfold latched_at, write_verify, bind. cbn [after_retries].
    destruct (bhnd_bus_read_4 r reg w) as [v1 w1].
    cbn [bhnd_bus_write_4 DELAY ret].
    destruct (bhnd_bus_read_4 r reg _) as [v2 w2].
    destruct (bhnd_bus_read_4 r reg _) as [v3 w3].
    cbn [fst]. now rewrite !Z.land_0_r. }
  split; [exact Hl | split; [| apply write_verify_writes]].
  apply (write_loop_hit dinfo r reg value 0 w Hcfg Hreg O);
    [lia | intros j Hj; lia | exact Hl].
Qed.

End WriteProofs.

Lemma siba_wait_target_busy_spec_witness :
  siba_wait_target_busy (R:=siba_regs) unmapped_dinfo 100000 latching_world
    = (Err ENODEV, latching_world)
  /\ fst (siba_wait_target_busy (R:=siba_regs) latching_dinfo 100000
            latching_world) = Ok tt
  /\ (let out := siba_wait_target_busy (R:=siba_regs) stuck_dinfo 25
                   stuck_world in
      fst out = Err ETIMEDOUT
      /\ n_reads (trace (snd out)) = 3%nat
      /\ n_printfs (trace (snd out)) = 1%nat).
Proof.
  pose proof (siba_wait_target_busy_spec (R:=siba_regs) unmapped_dinfo 100000
    latching_world ltac:(decide_layout)) as Hun.
  pose proof (siba_wait_target_busy_spec (R:=siba_regs) latching_dinfo 100000
    latching_world ltac:(decide_layout)) as Hclear.
  pose proof (siba_wait_target_busy_spec (R:=siba_regs) stuck_dinfo 25
    stuck_world ltac:(decide_layout)) as Hbusy.
  cbv zeta in Hun, Hclear, Hbusy |- *.
  destruct Hun as (Hun & _), Hclear as (_ & Hclear & _),
    Hbusy as (_ & Hbusy & _).
  destruct (Hclear tt eq_refl) as (_ & Hfirst & _).
  destruct (Hbusy tt eq_refl) as (_ & _ & Hnever).
  split; [apply Hun; reflexivity | split].
  - destruct (Hfirst O) as (-> & _);
      [vm_compute; lia | intros j Hj; lia | reflexivity | reflexivity].
  - destruct Hnever as (-> & -> & -> & _); [| repeat split].
    intros j Hj. reflexivity.
Defined.

(** C6 (counterexample).  On a device whose status register always reads
    busy, a timeout of 5 microseconds polls once and a timeout of 15 polls
    twice, more than the quotients 5 / 10 = 0 and 15 / 10 = 1. *)
Lemma siba_wait_target_busy_polls_exceed_quotient :
  n_reads (trace stuck_world) = 0%nat
  /\ n_reads (trace (snd (siba_wait_target_busy (R:=siba_regs) stuck_dinfo 5
                            stuck_world))) = 1%nat
  /\ 5 / 10 = 0
  /\ n_reads (trace (snd (siba_wait_target_busy (R:=siba_regs) stuck_dinfo 15
                            stuck_world))) = 2%nat
  /\ 15 / 10 = 1.
Proof. repeat split. Qed.


Lemma siba_write_target_state_mask0_witness :
  siba_write_target_state (R:=siba_regs) stuck_dinfo 0x98 0x5 0 stuck_world
  = siba_wait_target_busy (R:=siba_regs) stuck_dinfo 100000
      (snd (write_verify (B:=stuck_bus) tt 0x98 0x5 0 stuck_world))
  /\ n_writes (trace (snd (write_verify (B:=stuck_bus) tt 0x98 0x5 0
                             stuck_world))) = 1%nat.
Proof.
  destruct (siba_write_target_state_mask0 (R:=siba_regs) stuck_dinfo tt 0x98
    0x5 stuck_world eq_refl ltac:(decide_layout)) as (_ & Hwait & Hone).
  split; [exact Hwait | exact Hone].
Defined.

(** * Further properties of the driver *)

(** ** Ports, regions and indices *)

(** A device port is valid exactly when siba advertises at least one region
    on it, and no other port type is ever valid. *)
Theorem siba_is_port_valid_iff_regions (n port : Z) (type : bhnd_port_type) :
  is_u32 n -> is_u32 port ->
  (siba_is_port_valid n BHND_PORT_DEVICE port = true
     <-> 0 < siba_addrspace_region_count n port)
  /\ (siba_is_port_valid n type port = true ->
      type = BHND_PORT_DEVICE /\ port < siba_addrspace_port_count n)
  /\ (type <> BHND_PORT_DEVICE -> siba_is_port_valid n type port = false).
Proof.
  unfold is_u32, UINT32_MAX. intros Hn Hp.
  unfold siba_is_port_valid, siba_addrspace_port_count,
    siba_addrspace_region_count.
  split; [| split].
  - cbn [bhnd_port_type_eqb negb].
    destruct (Z.leb_spec (Z.min n 2) port) as [Hle | Hlt].
    + split; [discriminate | intros Hpos].
      destruct (Z.eqb_spec port 0) as [-> | H0]; [lia |].
      destruct (Z.eqb_spec port 1) as [-> | H1]; [| cbn in Hpos; lia].
      destruct (Z.leb_spec 2 n); cbn in Hpos; lia.
    + split; [intros _ | reflexivity].
      destruct (Z.eqb_spec port 0) as [-> | H0]; [lia |].
      destruct (Z.eqb_spec port 1) as [-> | H1]; [| lia].
      destruct (Z.leb_spec 2 n); [| lia]. cbn.
      rewrite u32_small by (unfold is_u32, UINT32_MAX; lia). lia.
  - destruct type; cbn; try discriminate.
    destruct (Z.leb_spec (Z.min n 2) port); [discriminate |]. auto.
  - destruct type; [contradiction | reflexivity | reflexivity].
Qed.

Lemma siba_is_port_valid_iff_regions_witness :
  siba_is_port_valid 3 BHND_PORT_DEVICE 1 = true
  /\ siba_is_port_valid 1 BHND_PORT_AGENT 0 = false.
Proof.
  pose proof (siba_is_port_valid_iff_regions 3 1 BHND_PORT_DEVICE
    ltac:(decide_layout) ltac:(decide_layout)) as (Hiff & _).
  pose proof (siba_is_port_valid_iff_regions 1 0 BHND_PORT_AGENT
    ltac:(decide_layout) ltac:(decide_layout)) as (_ & _ & Hother).
  split; [apply Hiff; vm_compute; reflexivity | apply Hother; discriminate].
Defined.

(** The regions of the two ports add up to the address space count, and the
    ports from siba_addrspace_port_count on have none: every address space
    is advertised once. *)
Theorem siba_addrspace_region_count_total (n port : Z) :
  is_u32 n ->
  siba_addrspace_region_count n 0 + siba_addrspace_region_count n 1 = n
  /\ (siba_addrspace_port_count n <= port ->
      siba_addrspace_region_count n port = 0).
Proof.
  unfold is_u32, UINT32_MAX. intros Hn.
  unfold siba_addrspace_region_count, siba_addrspace_port_count. cbn.
  destruct (Z.leb_spec 2 n).
  - rewrite u32_small by (unfold is_u32, UINT32_MAX; lia). split; [lia |].
    intros Hp. destruct (Z.eqb_spec port 0); [lia |].
    destruct (Z.eqb_spec port 1); [lia | reflexivity].
  - split; [lia |]. intros Hp.
    destruct (Z.eqb_spec port 0); [lia |].
    destruct (Z.eqb_spec port 1); reflexivity.
Qed.

Lemma siba_addrspace_region_count_total_witness :
  siba_addrspace_region_count 4 0 + siba_addrspace_region_count 4 1 = 4
  /\ siba_addrspace_region_count 4 7 = 0.
Proof.
  pose proof (siba_addrspace_region_count_total 4 7 ltac:(decide_layout))
    as (Hsum & Hnone).
  split; [exact Hsum | apply Hnone; vm_compute; discriminate].
Defined.

(** The index of an address space below the count, from its port and
    region. *)
Lemma siba_addrspace_index_of_port_region (n i : Z) :
  0 <= i < n -> n <= UINT32_MAX ->
  siba_addrspace_index n BHND_PORT_DEVICE
    (siba_addrspace_port i) (siba_addrspace_region i) = Ok i.
Proof.
  unfold UINT32_MAX. intros Hi Hn.
  unfold siba_addrspace_index, siba_is_port_valid, siba_addrspace_port_count,
    siba_addrspace_port, siba_addrspace_region.
  destruct (Z.eqb_spec i 0) as [-> | Hne]; cbn.
  - destruct (Z.leb_spec (Z.min n 2) 0); [lia |]. cbn.
    destruct (Z.leb_spec n 0); [lia | reflexivity].
  - rewrite (u32_small (i - 1)) by (unfold is_u32, UINT32_MAX; lia).
    destruct (Z.leb_spec (Z.min n 2) 1); [lia |]. cbn.
    replace (i - 1 + 1) with i by lia.
    rewrite (u32_small i) by (unfold is_u32, UINT32_MAX; lia).
    destruct (Z.leb_spec n i); [lia | reflexivity].
Qed.

(** siba_addrspace_index fails with ENOENT only, and an index it returns is
    below the address space count and comes from a valid device port;
    every region siba advertises on a port resolves to an index whose port
    and region are the ones asked for. *)
Theorem siba_addrspace_index_sound_complete
    (n : Z) (type : bhnd_port_type) (port region : Z) :
  is_u32 n -> is_u32 port -> is_u32 region ->
  (forall e, siba_addrspace_index n type port region = Err e -> e = ENOENT)
  /\ (forall i, siba_addrspace_index n type port region = Ok i ->
        0 <= i < n /\ siba_is_port_valid n type port = true)
  /\ (region < siba_addrspace_region_count n port ->
      exists i,
        siba_addrspace_index n BHND_PORT_DEVICE port region = Ok i
        /\ siba_addrspace_port i = port /\ siba_addrspace_region i = region).
Proof.
  unfold is_u32, UINT32_MAX. intros Hn Hp Hr.
  split; [| split].
  - intros e. unfold siba_addrspace_index.
    repeat match goal with
           | |- context [if ?c then _ else _] => destruct c
           end; congruence.
  - intros i. unfold siba_addrspace_index.
    destruct (siba_is_port_valid n type port); cbn; [| discriminate].
    pose proof (u32_range (region + 1)) as Hw.
    unfold is_u32, UINT32_MAX in Hw.
    destruct (Z.eqb_spec port 0).
    + destruct (Z.leb_spec n region); [discriminate |].
      intros [= <-]. split; [lia | reflexivity].
    + destruct (Z.eqb_spec port 1); [| discriminate].
      destruct (Z.leb_spec n (u32 (region + 1))); [discriminate |].
      intros [= <-]. split; [lia | reflexivity].
  - unfold siba_addrspace_region_count. intros Hlt.
    destruct (Z.eqb_spec port 0) as [-> | H0].
    + assert (region = 0) as -> by lia. exists 0.
      split; [| split; reflexivity].
      apply (siba_addrspace_index_of_port_region n 0); unfold UINT32_MAX; lia.
    + destruct (Z.eqb_spec port 1) as [-> | H1]; [| cbn in Hlt; lia].
      destruct (Z.leb_spec 2 n); cbn in Hlt; [| lia].
      rewrite u32_small in Hlt by (unfold is_u32, UINT32_MAX; lia).
      exists (region + 1).
      assert (Hport : siba_addrspace_port (region + 1) = 1).
      { unfold siba_addrspace_port.
        destruct (Z.eqb_spec (region + 1) 0); [lia | reflexivity]. }
      assert (Hreg : siba_addrspace_region (region + 1) = region).
      { unfold siba_addrspace_region.
        destruct (Z.eqb_spec (region + 1) 0); [lia |].
        replace (region + 1 - 1) with region by lia.
        apply u32_small. unfold is_u32, UINT32_MAX. lia. }
      split; [| split; assumption].
      rewrite <- Hport at 1. rewrite <- Hreg at 2.
      apply siba_addrspace_index_of_port_region; unfold UINT32_MAX; lia.
Qed.

Lemma siba_addrspace_index_sound_complete_witness :
  exists i,
    siba_addrspace_index 4 BHND_PORT_DEVICE 1 2 = Ok i
    /\ siba_addrspace_port i = 1 /\ siba_addrspace_region i = 2.
Proof.
  pose proof (siba_addrspace_index_sound_complete 4 BHND_PORT_DEVICE 1 2
    ltac:(decide_layout) ltac:(decide_layout) ltac:(decide_layout))
    as (_ & _ & Hall).
  apply Hall. vm_compute. reflexivity.
Defined.

(** ** Looking address spaces up *)

Section FindProofs.
Context {R : sibareg} {K : rman} {B : bhnd_bus}.

(** The address space array after a successful append, and what the append
    leaves alone. *)
Lemma siba_append_dinfo_region_slots (dinfo : siba_devinfo)
    (addridx base size bus_reserved : Z) :
  is_u32 base -> is_u32 size ->
  size <> 0 -> base + (size - 1) <= UINT32_MAX -> bus_reserved <= size ->
  addridx < SIBA_MAX_ADDRSPACE ->
  let out := siba_append_dinfo_region dinfo addridx base size bus_reserved in
  fst out = Ok tt
  /\ addrspace (snd out)
     = <[Z.to_nat addridx :=
           {| sa_base := base; sa_size := size;
              sa_rid := rl_next_rid (resources dinfo) SYS_RES_MEMORY;
              sa_bus_reserved := bus_reserved |}]> (addrspace dinfo)
  /\ core_id (snd out) = core_id dinfo
  /\ cfg (snd out) = cfg dinfo
  /\ cfg_rid (snd out) = cfg_rid dinfo
  /\ length (resources (snd out)) = S (length (resources dinfo)).
Proof.
  intros Hb Hs Hnz Hfit Hres Hidx out. subst out.
  assert (Hpos : 0 < size) by (unfold is_u32 in Hs; lia).
  unfold siba_append_dinfo_region.
  rewrite overflow_check by assumption.
  destruct (Z.ltb_spec 0 size); [| lia].
  destruct (Z.ltb_spec UINT32_MAX (base + (size - 1))); [lia |].
  destruct (Z.ltb_spec size bus_reserved); [lia |].
  destruct (Z.eqb_spec size 0); [lia |].
  destruct (Z.leb_spec SIBA_MAX_ADDRSPACE addridx); [lia |].
  cbn -[rman_res u32]. repeat apply conj; try reflexivity.
  rewrite length_app. cbn. lia.
Qed.

(** What siba_find_addrspace finds is a slot of the array, under a device
    port, at an index below both the core's address space count and the
    array's capacity; every index below both is found under its port and
    region, and an address space the core counts beyond the capacity is
    not found. *)
Theorem siba_find_addrspace_spec (dinfo : siba_devinfo)
    (type : bhnd_port_type) (port region i : Z) (sa : siba_addrspace) :
  dinfo_wf dinfo -> is_u32 (num_addrspace (core_id dinfo)) ->
  (siba_find_addrspace dinfo type port region = Some sa ->
     type = BHND_PORT_DEVICE
     /\ exists j,
          siba_addrspace_index (num_addrspace (core_id dinfo)) type port region
            = Ok j
          /\ j < SIBA_MAX_ADDRSPACE
          /\ addrspace dinfo !! Z.to_nat j = Some sa)
  /\ (0 <= i < num_addrspace (core_id dinfo) -> i < SIBA_MAX_ADDRSPACE ->
      siba_find_addrspace dinfo BHND_PORT_DEVICE
        (siba_addrspace_port i) (siba_addrspace_region i)
      = addrspace dinfo !! Z.to_nat i
      /\ is_Some (addrspace dinfo !! Z.to_nat i))
  /\ (0 <= i -> SIBA_MAX_ADDRSPACE <= i < num_addrspace (core_id dinfo) ->
      siba_find_addrspace dinfo BHND_PORT_DEVICE
        (siba_addrspace_port i) (siba_addrspace_region i) = None).
Proof.
  intros (Hlen & _) Hn. unfold is_u32 in Hn.
  unfold siba_find_addrspace. split; [| split].
  - destruct (siba_addrspace_index _ type port region) as [j |] eqn:Ei;
      [| discriminate].
    destruct (Z.leb_spec SIBA_MAX_ADDRSPACE j); [discriminate |].
    intros Hsa. split; [| exists j; auto].
    unfold siba_addrspace_index in Ei.
    destruct (siba_is_port_valid _ type port) eqn:Ev; [| discriminate].
    unfold siba_is_port_valid in Ev. destruct type; [reflexivity | |];
      discriminate.
  - intros Hi Hcap.
    rewrite siba_addrspace_index_of_port_region by lia.
    destruct (Z.leb_spec SIBA_MAX_ADDRSPACE i); [lia |].
    split; [reflexivity |]. apply lookup_lt_is_Some. lia.
  - intros Hpos Hi.
    rewrite siba_addrspace_index_of_port_region by lia.
    destruct (Z.leb_spec SIBA_MAX_ADDRSPACE i); [reflexivity | lia].
Qed.

(** An address space appended at an index the core counts is found under
    the port and region of that index, with the base, size and reserved
    bytes appended and the resource identifier the list returned; every
    lookup that resolves to another index finds what it found before. *)
Theorem siba_append_then_find (dinfo : siba_devinfo)
    (addridx base size bus_reserved : Z) :
  is_u32 base -> is_u32 size -> dinfo_wf dinfo ->
  size <> 0 -> base + (size - 1) <= UINT32_MAX -> bus_reserved <= size ->
  0 <= addridx < SIBA_MAX_ADDRSPACE ->
  addridx < num_addrspace (core_id dinfo) ->
  num_addrspace (core_id dinfo) <= UINT32_MAX ->
  let out := siba_append_dinfo_region dinfo addridx base size bus_reserved in
  siba_find_addrspace (snd out) BHND_PORT_DEVICE
    (siba_addrspace_port addridx) (siba_addrspace_region addridx)
  = Some {| sa_base := base; sa_size := size;
            sa_rid := rl_next_rid (resources dinfo) SYS_RES_MEMORY;
            sa_bus_reserved := bus_reserved |}
  /\ (forall type port region,
        is_u32 region ->
        siba_addrspace_index (num_addrspace (core_id dinfo)) type port region
          <> Ok addridx ->
        siba_find_addrspace (snd out) type port region
        = siba_find_addrspace dinfo type port region).
Proof.
  intros Hb Hs (Hlen & _) Hnz Hfit Hres Hidx Hcount Hn out.
  destruct (siba_append_dinfo_region_slots dinfo addridx base size
    bus_reserved Hb Hs Hnz Hfit Hres ltac:(lia)) as (_ & Ha & Hc & _).
  fold out in Ha, Hc. unfold siba_find_addrspace. rewrite Hc, Ha. split.
  - rewrite siba_addrspace_index_of_port_region by lia.
    destruct (Z.leb_spec SIBA_MAX_ADDRSPACE addridx); [lia |].
    apply list_lookup_insert_eq. lia.
  - intros type port region Hreg Hne. unfold is_u32 in Hreg.
    destruct (siba_addrspace_index _ type port region) as [j |] eqn:Ei;
      [| reflexivity].
    destruct (Z.leb_spec SIBA_MAX_ADDRSPACE j); [reflexivity |].
    apply list_lookup_insert_ne. intros Heq.
    assert (Hj : 0 <= j).
    { unfold siba_addrspace_index in Ei.
      destruct (siba_is_port_valid _ type port) eqn:Ev; [| discriminate].
      cbn in Ei. unfold siba_is_port_valid, siba_addrspace_port_count in Ev.
      destruct type; cbn in Ev; try discriminate.
      destruct (Z.leb_spec (Z.min (num_addrspace (core_id dinfo)) 2) port);
        [discriminate |].
      pose proof (u32_range (region + 1)) as Hw. unfold is_u32 in Hw.
      destruct (Z.eqb_spec port 0) as [-> | Hp0].
      - destruct (Z.leb_spec (num_addrspace (core_id dinfo)) region);
          [discriminate |]. injection Ei as <-. lia.
      - destruct (Z.eqb_spec port 1); [| discriminate].
        destruct (Z.leb_spec (num_addrspace (core_id dinfo))
                    (u32 (region + 1))); [discriminate |].
        injection Ei as <-. lia. }
    apply Hne. f_equal. lia.
Qed.

End FindProofs.

Lemma siba_find_addrspace_spec_witness :
  siba_find_addrspace (R:=siba_regs) probed_dinfo BHND_PORT_DEVICE
    (siba_addrspace_port 1) (siba_addrspace_region 1)
  = addrspace probed_dinfo !! 1%nat
  /\ is_Some (addrspace probed_dinfo !! 1%nat).
Proof.
  pose proof (siba_find_addrspace_spec (R:=siba_regs) probed_dinfo
    BHND_PORT_DEVICE 1 0 1
    {| sa_base := 0; sa_size := 0; sa_rid := 0; sa_bus_reserved := 0 |}
    ltac:(decide_layout) ltac:(decide_layout)) as (_ & Hfound & _).
  apply Hfound; decide_layout.
Defined.

Lemma siba_append_then_find_witness :
  siba_find_addrspace (R:=siba_regs)
    (snd (siba_append_dinfo_region (R:=siba_regs) (K:=counting_rman)
            probed_dinfo 1 0x18001000 0x1000 0x100))
    BHND_PORT_DEVICE (siba_addrspace_port 1) (siba_addrspace_region 1)
  = Some {| sa_base := 0x18001000; sa_size := 0x1000; sa_rid := 0;
            sa_bus_reserved := 0x100 |}.
Proof.
  pose proof (siba_append_then_find (R:=siba_regs) (K:=counting_rman)
    probed_dinfo 1 0x18001000 0x1000 0x100) as H.
  do 9 (specialize (H ltac:(decide_layout))).
  cbv zeta in H. exact (proj1 H).
Defined.

(** ** Allocation and release *)

Section LifecycleProofs.
Context {R : sibareg} {K : rman} {B : bhnd_bus}.

Lemma cfg_at_alloc (i : nat) : cfg_at siba_alloc_dinfo i = None.
Proof.
  unfold cfg_at, siba_alloc_dinfo. cbn [cfg].
  destruct (replicate (Z.to_nat SIBA_MAX_CFG) None !! i) as [r |] eqn:E;
    [| reflexivity].
  apply lookup_replicate in E. now destruct E as [-> _].
Qed.

(** A device info fresh from siba_alloc_dinfo has arrays of the declared
    sizes, no address space to find and no config window: after
    siba_init_dinfo stores a core id in it, siba_write_target_state and
    siba_wait_target_busy fail with ENODEV without touching the hardware,
    and siba_free_dinfo releases nothing. *)
Theorem siba_alloc_dinfo_fresh (id : siba_core_id) (type : bhnd_port_type)
    (port region reg value mask usec : Z) (w : world) :
  let dinfo := snd (siba_init_dinfo siba_alloc_dinfo id) in
  dinfo_wf siba_alloc_dinfo
  /\ siba_find_addrspace siba_alloc_dinfo type port region = None
  /\ fst (siba_init_dinfo siba_alloc_dinfo id) = Ok tt
  /\ dinfo_wf dinfo
  /\ core_id dinfo = id
  /\ resources dinfo = []
  /\ siba_write_target_state dinfo reg value mask w = (Err ENODEV, w)
  /\ siba_wait_target_busy dinfo usec w = (Err ENODEV, w)
  /\ fst (siba_free_dinfo dinfo) = [].
Proof.
  intros dinfo.
  assert (Hwf : dinfo_wf siba_alloc_dinfo).
  { unfold dinfo_wf, siba_alloc_dinfo. cbn [addrspace cfg cfg_rid].
    now rewrite !length_replicate. }
  assert (Hcfg : forall i, cfg_at dinfo i = None) by apply cfg_at_alloc.
  refine (conj Hwf (conj _ (conj eq_refl (conj Hwf (conj eq_refl
    (conj eq_refl (conj _ (conj _ _)))))))).
  - unfold siba_find_addrspace, siba_addrspace_index, siba_is_port_valid,
      siba_addrspace_port_count. cbn [siba_alloc_dinfo core_id num_addrspace].
    change (Z.min 0 2) with 0.
    destruct type; cbn [bhnd_port_type_eqb negb]; try reflexivity.
    destruct (Z.leb_spec 0 port); cbn [negb]; [reflexivity |].
    destruct (Z.eqb_spec port 0); [lia |].
    destruct (Z.eqb_spec port 1); [lia | reflexivity].
  - unfold siba_write_target_state. now rewrite Hcfg.
  - unfold siba_wait_target_busy. now rewrite Hcfg.
  - unfold siba_free_dinfo.
    set (d0 := {| resources := resource_list_free (resources dinfo);
                  core_id := _; addrspace := _; cfg := _; cfg_rid := _ |}).
    assert (Hd0 : forall i, cfg_at d0 i = None) by apply cfg_at_alloc.
    generalize (@nil release_call) as calls.
    generalize 0%nat as s.
    induction (Z.to_nat SIBA_MAX_CFG) as [| k IH]; intros s calls;
      [reflexivity |].
    cbn [seq fold_left]. unfold free_cfg at 2. rewrite Hd0. apply IH.
Qed.

End LifecycleProofs.

Section FreeProofs.
Context {R : sibareg} {K : rman} {B : bhnd_bus}.

Lemma cfg_at_agree (d1 d2 : siba_devinfo) (i : nat) :
  cfg d1 !! i = cfg d2 !! i -> cfg_at d1 i = cfg_at d2 i.
Proof. unfold cfg_at. now intros ->. Qed.

Lemma cfg_rid_at_agree (d1 d2 : siba_devinfo) (i : nat) :
  cfg_rid d1 !! i = cfg_rid d2 !! i -> cfg_rid_at d1 i = cfg_rid_at d2 i.
Proof. unfold cfg_rid_at. now intros ->. Qed.

(** The loop of siba_free_dinfo over the windows [s, s + k), started on a
    record [dc] that agrees with [dinfo] from window [s] on. *)
Lemma free_cfg_loop (dinfo : siba_devinfo) (k : nat) :
  forall (s : nat) (calls : list release_call) (dc : siba_devinfo),
  (forall i, (s <= i)%nat ->
     cfg dc !! i = cfg dinfo !! i /\ cfg_rid dc !! i = cfg_rid dinfo !! i) ->
  let out := fold_left free_cfg (seq s k) (calls, dc) in
  fst out = calls ++ omap (release_of dinfo) (seq s k)
  /\ (forall i, (s <= i < s + k)%nat -> cfg_at (snd out) i = None)
  /\ (forall i, (i < s \/ s + k <= i)%nat ->
        cfg (snd out) !! i = cfg dc !! i
        /\ cfg_rid (snd out) !! i = cfg_rid dc !! i)
  /\ (forall i r, (s <= i < s + k)%nat -> cfg_at dinfo i = Some r ->
        (i < length (cfg_rid dinfo))%nat ->
        cfg_rid (snd out) !! i = Some (-1))
  /\ (forall i, (s <= i < s + k)%nat -> cfg_at dinfo i = None ->
        cfg_rid (snd out) !! i = cfg_rid dinfo !! i)
  /\ resources (snd out) = resources dc
  /\ core_id (snd out) = core_id dc
  /\ addrspace (snd out) = addrspace dc
  /\ length (cfg (snd out)) = length (cfg dc)
  /\ length (cfg_rid (snd out)) = length (cfg_rid dc).
Proof.
  induction k as [| k IH]; intros s calls dc Hagree out.
  - subst out. cbn [seq fold_left fst snd omap].
    rewrite app_nil_r. repeat apply conj; try reflexivity; intros; try lia.
    split; reflexivity.
  - subst out. cbn [seq fold_left].
    destruct (Hagree s ltac:(lia)) as [Hc Hr].
    pose proof (cfg_at_agree dc dinfo s Hc) as Hat.
    pose proof (cfg_rid_at_agree dc dinfo s Hr) as Hrat.
    destruct (cfg_at dc s) as [r |] eqn:Es.
    + (* window s is mapped: released, slot reset *)
      set (dc1 := {| resources := resources dc; core_id := core_id dc;
                     addrspace := addrspace dc;
                     cfg := <[s:=None]> (cfg dc);
                     cfg_rid := <[s:=-1]> (cfg_rid dc) |}).
      assert (Hstep : free_cfg (calls, dc) s
                = (calls ++ [ {| rel_type := SYS_RES_MEMORY;
                     rel_rid := cfg_rid_at dc s; rel_res := r |} ], dc1))
        by (unfold free_cfg; now rewrite Es).
      rewrite Hstep.
      assert (Hagree1 : forall i, (S s <= i)%nat ->
                cfg dc1 !! i = cfg dinfo !! i
                /\ cfg_rid dc1 !! i = cfg_rid dinfo !! i).
      { intros i Hi. cbn [dc1 cfg cfg_rid].
        rewrite !list_lookup_insert_ne by lia. apply Hagree. lia. }
      destruct (IH (S s) (calls ++ [ {| rel_type := SYS_RES_MEMORY;
                  rel_rid := cfg_rid_at dc s; rel_res := r |} ]) dc1 Hagree1)
        as (H1 & H2 & H3 & H4 & H5 & H6 & H7 & H8 & H9 & H10).
      assert (Hs : (s < length (cfg dc))%nat).
      { unfold cfg_at in Es. destruct (cfg dc !! s) eqn:El; [| discriminate].
        eapply lookup_lt_Some; eassumption. }
      repeat apply conj.
      * assert (Hrel : release_of dinfo s
                  = Some {| rel_type := SYS_RES_MEMORY;
                            rel_rid := cfg_rid_at dc s; rel_res := r |})
          by (unfold release_of; now rewrite <- Hat, <- Hrat).
        rewrite H1. cbn [omap list_omap]. rewrite Hrel. now rewrite <- app_assoc.
      * intros i Hi. destruct (decide (i = s)) as [-> | Hne];
          [| apply H2; lia].
        destruct (H3 s ltac:(lia)) as [Hcs _].
        unfold cfg_at. rewrite Hcs. cbn [dc1 cfg].
        now rewrite list_lookup_insert_eq.
      * intros i Hi. destruct (H3 i ltac:(lia)) as [Hci Hri].
        rewrite Hci, Hri. cbn [dc1 cfg cfg_rid].
        rewrite !list_lookup_insert_ne by lia. split; reflexivity.
      * intros i r' Hi Hmap Hlen.
        destruct (decide (i = s)) as [-> | Hne];
          [| apply (H4 i r'); [lia | assumption | assumption]].
        destruct (H3 s ltac:(lia)) as [_ Hrs]. rewrite Hrs. cbn [dc1 cfg_rid].
        apply list_lookup_insert_eq.
        apply lookup_lt_is_Some. rewrite Hr. now apply lookup_lt_is_Some.
      * intros i Hi Hnone.
        destruct (decide (i = s)) as [-> | Hne]; [congruence |].
        apply H5; [lia | assumption].
      * exact H6.
      * exact H7.
      * exact H8.
      * rewrite H9. cbn [dc1 cfg]. apply length_insert.
      * rewrite H10. cbn [dc1 cfg_rid]. apply length_insert.
    + (* window s is unmapped: skipped *)
      assert (Hstep : free_cfg (calls, dc) s = (calls, dc))
        by (unfold free_cfg; now rewrite Es).
      rewrite Hstep.
      assert (Hagree1 : forall i, (S s <= i)%nat ->
                cfg dc !! i = cfg dinfo !! i
                /\ cfg_rid dc !! i = cfg_rid dinfo !! i)
        by (intros i Hi; apply Hagree; lia).
      destruct (IH (S s) calls dc Hagree1)
        as (H1 & H2 & H3 & H4 & H5 & H6 & H7 & H8 & H9 & H10).
      repeat apply conj; try assumption.
      * assert (Hrel : release_of dinfo s = None)
          by (unfold release_of; now rewrite <- Hat).
        rewrite H1. cbn [omap list_omap]. now rewrite Hrel.
      * intros i Hi. destruct (decide (i = s)) as [-> | Hne];
          [| apply H2; lia].
        destruct (H3 s ltac:(lia)) as [Hcs _].
        rewrite (cfg_at_agree _ dc s Hcs). exact Es.
      * intros i Hi. apply H3. lia.
      * intros i r' Hi Hmap Hlen.
        destruct (decide (i = s)) as [-> | Hne]; [congruence |].
        apply (H4 i r'); [lia | assumption | assumption].
      * intros i Hi Hnone.
        destruct (decide (i = s)) as [-> | Hne]; [| apply H5; [lia | assumption]].
        destruct (H3 s ltac:(lia)) as [_ Hrs]. now rewrite Hrs.
Qed.

(** siba_free_dinfo releases every mapped config window once, in index
    order, as a SYS_RES_MEMORY resource under the window's own identifier,
    and releases nothing else; it leaves every window unmapped, the
    identifier of each released window reset to -1 and the others alone,
    the resource list empty, and the address spaces and core id as they
    were. *)
Theorem siba_free_dinfo_spec (dinfo : siba_devinfo) :
  dinfo_wf dinfo ->
  let out := siba_free_dinfo dinfo in
  fst out = omap (release_of dinfo) (seq 0 (Z.to_nat SIBA_MAX_CFG))
  /\ (forall i, cfg_at (snd out) i = None)
  /\ (forall i r, cfg_at dinfo i = Some r ->
        cfg_rid (snd out) !! i = Some (-1))
  /\ (forall i, cfg_at dinfo i = None ->
        cfg_rid (snd out) !! i = cfg_rid dinfo !! i)
  /\ resources (snd out) = []
  /\ addrspace (snd out) = addrspace dinfo
  /\ core_id (snd out) = core_id dinfo
  /\ dinfo_wf (snd out).
Proof.
  intros (Hla & Hlc & Hlr) out. subst out. unfold siba_free_dinfo.
  set (d0 := {| resources := resource_list_free (resources dinfo);
                core_id := core_id dinfo; addrspace := addrspace dinfo;
                cfg := cfg dinfo; cfg_rid := cfg_rid dinfo |}).
  destruct (free_cfg_loop dinfo (Z.to_nat SIBA_MAX_CFG) 0 [] d0
    ltac:(intros i _; split; reflexivity))
    as (H1 & H2 & H3 & H4 & H5 & H6 & H7 & H8 & H9 & H10).
  assert (Hout : forall i, (Z.to_nat SIBA_MAX_CFG <= i)%nat ->
            cfg_at dinfo i = None).
  { intros i Hi. unfold cfg_at.
    now rewrite (lookup_ge_None_2 (cfg dinfo)) by lia. }
  refine (conj H1 (conj _ (conj _ (conj _ (conj H6 (conj H8 (conj H7 _))))))).
  - intros i. destruct (lt_dec i (Z.to_nat SIBA_MAX_CFG)) as [Hlt | Hge].
    + apply H2. lia.
    + destruct (H3 i ltac:(lia)) as [Hc _].
      rewrite (cfg_at_agree _ d0 i Hc). apply Hout. lia.
  - intros i r Hmap.
    destruct (lt_dec i (Z.to_nat SIBA_MAX_CFG)) as [Hlt | Hge].
    + apply (H4 i r); [lia | assumption | lia].
    + rewrite Hout in Hmap by lia. discriminate.
  - intros i Hnone.
    destruct (lt_dec i (Z.to_nat SIBA_MAX_CFG)) as [Hlt | Hge].
    + apply H5; [lia | assumption].
    + now destruct (H3 i ltac:(lia)) as [_ ->].
  - unfold dinfo_wf. rewrite H8, H9, H10. cbn [d0 addrspace cfg cfg_rid].
    auto.
Qed.

End FreeProofs.

Lemma siba_free_dinfo_spec_witness :
  fst (siba_free_dinfo (R:=siba_regs) (K:=counting_rman) two_window_dinfo)
  = [ @Build_release_call latching_bus 3 0 tt;
      @Build_release_call latching_bus 3 1 tt ]
  /\ cfg_at (snd (siba_free_dinfo (R:=siba_regs) (K:=counting_rman)
                    two_window_dinfo)) 1 = None.
Proof.
  pose proof (siba_free_dinfo_spec (R:=siba_regs) (K:=counting_rman)
    two_window_dinfo ltac:(decide_layout)) as H.
  cbv zeta in H. destruct H as (Hcalls & Hnone & _).
  split; [now rewrite Hcalls | apply Hnone].
Defined.

(** ** From the identification registers to the first port *)

Section ProbeProofs.
Context {R : sibareg} {B : bhnd_bus}.

(** Every core id parsed from the identification registers counts at least
    one address space and one or two config blocks, so that device port 0
    is valid with its one region, which resolves to address space 0; and a
    device info initialised with it finds a slot for that region when the
    array has any. *)
Theorem siba_parse_core_id_first_port (idhigh idlow core_idx unit : Z) :
  is_u32 idlow ->
  field_below SIBA_IDL_NRADDR_MASK SIBA_IDL_NRADDR_SHIFT (2 ^ 8 - 1) ->
  let id := siba_parse_core_id idhigh idlow core_idx unit in
  let dinfo := snd (siba_init_dinfo siba_alloc_dinfo id) in
  1 <= num_addrspace id <= 255
  /\ 1 <= num_cfg_blocks id <= 2
  /\ siba_is_port_valid (num_addrspace id) BHND_PORT_DEVICE 0 = true
  /\ siba_addrspace_region_count (num_addrspace id) 0 = 1
  /\ siba_addrspace_index (num_addrspace id) BHND_PORT_DEVICE 0 0 = Ok 0
  /\ (0 < SIBA_MAX_ADDRSPACE ->
      siba_find_addrspace dinfo BHND_PORT_DEVICE 0 0
      = Some {| sa_base := 0; sa_size := 0; sa_rid := 0;
                sa_bus_reserved := 0 |}).
Proof.
  intros [Hl _] Hn id dinfo.
  pose proof (SIBA_REG_GET_range idlow _ _ _ Hl Hn) as Bn.
  assert (Hcount : num_addrspace id
            = SIBA_REG_GET idlow SIBA_IDL_NRADDR_MASK SIBA_IDL_NRADDR_SHIFT + 1).
  { subst id. unfold siba_parse_core_id. cbn [num_addrspace].
    apply Z.mod_small. lia. }
  assert (Hrange : 1 <= num_addrspace id <= 255) by lia.
  assert (Hidx : siba_addrspace_index (num_addrspace id) BHND_PORT_DEVICE 0 0
                 = Ok 0)
    by (apply (siba_addrspace_index_of_port_region (num_addrspace id) 0);
        unfold UINT32_MAX; lia).
  refine (conj Hrange (conj _ (conj _ (conj _ (conj Hidx _))))).
  - subst id. unfold siba_parse_core_id. cbn [num_cfg_blocks].
    destruct (_ <=? _); vm_compute; split; discriminate.
  - unfold siba_is_port_valid, siba_addrspace_port_count.
    cbn [bhnd_port_type_eqb negb].
    destruct (Z.leb_spec (Z.min (num_addrspace id) 2) 0); [lia | reflexivity].
  - unfold siba_addrspace_region_count. change (0 =? 0) with true.
    cbv iota. lia.
  - intros Hcap. unfold siba_find_addrspace.
    change (core_id dinfo) with id. rewrite Hidx.
    destruct (Z.leb_spec SIBA_MAX_ADDRSPACE 0); [lia |].
    change (addrspace dinfo) with (addrspace siba_alloc_dinfo).
    unfold siba_alloc_dinfo. cbn [addrspace]. apply lookup_replicate.
    split; [reflexivity | lia].
Qed.

End ProbeProofs.

Lemma siba_parse_core_id_first_port_witness :
  siba_is_port_valid
    (num_addrspace (siba_parse_core_id (R:=siba_regs) 0x4243800F 0x10000008 3 0))
    BHND_PORT_DEVICE 0 = true
  /\ siba_find_addrspace (R:=siba_regs) probed_dinfo BHND_PORT_DEVICE 0 0
     = Some {| sa_base := 0; sa_size := 0; sa_rid := 0; sa_bus_reserved := 0 |}.
Proof.
  pose proof (siba_parse_core_id_first_port (R:=siba_regs) (B:=latching_bus)
    0x4243800F 0x10000008 3 0 ltac:(decide_layout) ltac:(decide_layout)) as H.
  cbv zeta in H. destruct H as (_ & _ & Hvalid & _ & _ & Hfind).
  split; [exact Hvalid | apply Hfind; decide_layout].
Defined.

(** ** Address match register offsets *)

(** When none of the four address match registers sits at offset 0,
    siba_admatch_offset returns 0 exactly for the indices it does not
    support, those from 4 on. *)
Theorem siba_admatch_offset_zero_iff {A : sibareg_admatch} (addrspace : Z) :
  is_u8 addrspace ->
  u32 (SB0_REG_ABS SIBA_CFG0_ADMATCH0) <> 0 ->
  u32 (SB0_REG_ABS SIBA_CFG0_ADMATCH1) <> 0 ->
  u32 (SB0_REG_ABS SIBA_CFG0_ADMATCH2) <> 0 ->
  u32 (SB0_REG_ABS SIBA_CFG0_ADMATCH3) <> 0 ->
  (siba_admatch_offset addrspace = 0 <-> 4 <= addrspace)
  /\ is_u32 (siba_admatch_offset addrspace).
Proof.
  unfold is_u8. intros Ha H0 H1 H2 H3. unfold siba_admatch_offset.
  destruct (Z.eqb_spec addrspace 0);
    [split; [split; [contradiction | lia] | apply u32_range] |].
  destruct (Z.eqb_spec addrspace 1);
    [split; [split; [contradiction | lia] | apply u32_range] |].
  destruct (Z.eqb_spec addrspace 2);
    [split; [split; [contradiction | lia] | apply u32_range] |].
  destruct (Z.eqb_spec addrspace 3);
    [split; [split; [contradiction | lia] | apply u32_range] |].
  split; [split; [lia | reflexivity] | unfold is_u32, UINT32_MAX; lia].
Qed.

Lemma siba_admatch_offset_zero_iff_witness :
  siba_admatch_offset (A:=siba_admatch_regs) 4 = 0
  /\ siba_admatch_offset (A:=siba_admatch_regs) 3 <> 0.
Proof.
  pose proof (siba_admatch_offset_zero_iff (A:=siba_admatch_regs) 4) as H4.
  pose proof (siba_admatch_offset_zero_iff (A:=siba_admatch_regs) 3) as H3.
  do 5 (specialize (H4 ltac:(decide_layout))).
  do 5 (specialize (H3 ltac:(decide_layout))).
  destruct H4 as (H4 & _), H3 as (H3 & _).
  split; [apply H4; lia | intros Hz; apply H3 in Hz; lia].
Defined.

(** ** What the target-state functions do to the registers *)

Lemma not32_testbit (m n : Z) :
  0 <= n ->
  Z.testbit (not32 m) n = (n <? 32) && negb (Z.testbit m n).
Proof.
  intros Hn. unfold not32, u32.
  destruct (Z.ltb_spec n 32).
  - rewrite Z.mod_pow2_bits_low by lia. now rewrite Z.lnot_spec.
  - now rewrite Z.mod_pow2_bits_high by lia.
Qed.

(** Replacing the bits of [a] under [m] by those of [b]: the bits under [m]
    are [b]'s, the other bits of the 32 are [a]'s. *)
Lemma masked_update_bits (a b m : Z) :
  let v := Z.lor (Z.land a (not32 m)) (Z.land b m) in
  Z.land v m = Z.land b m /\ Z.land v (not32 m) = Z.land a (not32 m).
Proof.
  intros v. subst v. split; apply Z.bits_inj'; intros n Hn;
    rewrite ?Z.land_spec, ?Z.lor_spec, ?Z.land_spec, ?not32_testbit by lia;
    destruct (Z.testbit a n), (Z.testbit b n), (Z.testbit m n), (n <? 32);
    reflexivity.
Qed.

Section TraceProofs.
Context {R : sibareg} {B : bhnd_bus}.

Lemma extends_refl (P : event -> Prop) (w : world) : extends P w w.
Proof. exists []. split; [reflexivity | constructor]. Qed.

Lemma extends_trans (P : event -> Prop) (w1 w2 w3 : world) :
  extends P w1 w2 -> extends P w2 w3 -> extends P w1 w3.
Proof.
  intros (e1 & H1 & F1) (e2 & H2 & F2). exists (e2 ++ e1). split.
  - now rewrite H2, H1, app_assoc.
  - apply Forall_app. now split.
Qed.

Lemma extends_impl (P Q : event -> Prop) (w w' : world) :
  (forall e, P e -> Q e) -> extends P w w' -> extends Q w w'.
Proof.
  intros HPQ (evs & Ht & Hf). exists evs. split; [assumption |].
  eapply Forall_impl; eassumption.
Qed.

Lemma extends_event (P : event -> Prop) (w w' : world) (e : event) :
  trace w' = e :: trace w -> P e -> extends P w w'.
Proof.
  intros Ht He. exists [e]. split; [assumption |]. now constructor.
Qed.

(** A loop whose body only leaves events that satisfy [P] only leaves such
    events. *)
Lemma for_step10_extends {A : Type} (P : event -> Prop) (body : M (option A)) :
  (forall w, extends P w (snd (body w))) ->
  forall (n : nat) (bound i : Z) (w : world),
  iterations bound i = n ->
  extends P w (snd (for_step10 bound body i w)).
Proof.
  intros Hbody. induction n as [| n IH]; intros bound i w Hn.
  - rewrite for_step10_step.
    destruct (Z.ltb_spec i bound) as [Hlt |]; [| apply extends_refl].
    rewrite (iterations_step _ _ Hlt) in Hn. discriminate.
  - rewrite for_step10_step.
    destruct (Z.ltb_spec i bound) as [Hlt |]; [| apply extends_refl].
    rewrite (iterations_step _ _ Hlt) in Hn.
    specialize (Hbody w).
    destruct (body w) as [[a |] w'] eqn:Eb; cbn [snd] in *; [assumption |].
    eapply extends_trans; [exact Hbody |].
    apply IH. congruence.
Qed.

Lemma busy_poll_extends (r : bhnd_resource) (w : world) :
  extends (busy_wait_event r) w (snd (busy_poll r w)).
Proof.
  unfold busy_poll, bind.
  pose proof (bhnd_bus_read_4_trace r SIBA_CFG0_TMSTATEHIGH w) as Ht.
  destruct (bhnd_bus_read_4 r SIBA_CFG0_TMSTATEHIGH w) as [v w'].
  cbn [fst snd] in Ht.
  assert (Hread : extends (busy_wait_event r) w w')
    by (eapply extends_event; [exact Ht | now split]).
  destruct (Z.land v SIBA_TMH_BUSY =? 0); cbn [ret DELAY snd];
    [exact Hread |].
  eapply extends_trans; [exact Hread |].
  eapply extends_event; [reflexivity | reflexivity].
Qed.

Lemma siba_wait_target_busy_extends (dinfo : siba_devinfo)
    (r : bhnd_resource) (usec : Z) (w : world) :
  cfg_at dinfo 0 = Some r ->
  extends (busy_wait_event r) w (snd (siba_wait_target_busy dinfo usec w)).
Proof.
  intros Hcfg. unfold siba_wait_target_busy. rewrite Hcfg. unfold bind.
  pose proof (for_step10_extends (busy_wait_event r) (busy_poll r)
    (busy_poll_extends r) _ usec 0 w eq_refl) as Hloop.
  destruct (for_step10 usec (busy_poll r) 0 w) as [[res |] w'];
    cbn [snd ret] in *; [exact Hloop |].
  eapply extends_trans; [exact Hloop |].
  eapply extends_event; [reflexivity | exact I].
Qed.

(** siba_wait_target_busy only reads SIBA_CFG0_TMSTATEHIGH of the first
    config window, waits 10 microseconds at a time and reports: it writes
    no register, and with no window mapped it leaves no event at all. *)
Theorem siba_wait_target_busy_events (dinfo : siba_devinfo) (usec : Z)
    (w : world) :
  (forall r, cfg_at dinfo 0 = Some r ->
     extends (busy_wait_event r) w
       (snd (siba_wait_target_busy dinfo usec w)))
  /\ (cfg_at dinfo 0 = None ->
      snd (siba_wait_target_busy dinfo usec w) = w)
  /\ n_writes (trace (snd (siba_wait_target_busy dinfo usec w)))
     = n_writes (trace w).
Proof.
  assert (Hmapped : forall r, cfg_at dinfo 0 = Some r ->
    extends (busy_wait_event r) w (snd (siba_wait_target_busy dinfo usec w)))
    by (intros r Hcfg; now apply siba_wait_target_busy_extends).
  split; [exact Hmapped | split].
  - intros Hcfg. unfold siba_wait_target_busy. now rewrite Hcfg.
  - destruct (cfg_at dinfo 0) as [r |] eqn:Hcfg.
    + destruct (Hmapped r eq_refl) as (evs & -> & Hf).
      induction Hf as [| e evs He _ IH]; [reflexivity |].
      cbn [app n_writes]. destruct e; cbn in He; [| contradiction | |];
        exact IH.
    + unfold siba_wait_target_busy. now rewrite Hcfg.
Qed.

Lemma busy_wait_is_target_state_event (r : bhnd_resource)
    (reg value mask : Z) (e : event) :
  busy_wait_event r e -> target_state_event r reg value mask e.
Proof.
  destruct e; cbn; tauto.
Qed.

Lemma write_verify_trace (r : bhnd_resource) (reg value mask : Z)
    (w : world) :
  let v1 := fst (bhnd_bus_read_4 r reg w) in
  exists v2 v3,
    trace (snd (write_verify r reg value mask w))
    = [EvRead r reg v3; EvDelay 1; EvRead r reg v2;
       EvWrite r reg (Z.lor (Z.land v1 (not32 mask)) (Z.land value mask));
       EvRead r reg v1] ++ trace w
    /\ fst (write_verify r reg value mask w)
       = (Z.land v3 mask =? Z.land value mask).
Proof.
  intros v1. subst v1. unfold write_verify, bind.
  pose proof (bhnd_bus_read_4_trace r reg w) as H1.
  destruct (bhnd_bus_read_4 r reg w) as [x1 w1]. cbn [fst snd] in *.
  cbn [bhnd_bus_write_4 DELAY ret].
  set (w2 := {| dev := hw_write_4 r reg _ (dev w1); trace := _ |}).
  pose proof (bhnd_bus_read_4_trace r reg w2) as H2.
  destruct (bhnd_bus_read_4 r reg w2) as [v2 w3]. cbn [fst snd] in H2.
  set (w4 := {| dev := hw_delay 1 (dev w3); trace := _ |}).
  pose proof (bhnd_bus_read_4_trace r reg w4) as H3.
  destruct (bhnd_bus_read_4 r reg w4) as [v3 w5]. cbn [fst snd ret] in H3 |- *.
  exists v2, v3. rewrite H3. subst w4. cbn [trace]. rewrite H2. subst w2.
  cbn [trace]. rewrite H1. split; reflexivity.
Qed.

(** The read-modify-write of one iteration: a read of the register, one
    write of the value read with the bits under the mask replaced by those
    of [value] and every other bit kept, a read-back, a delay of one
    microsecond and the read whose masked bits decide the iteration. *)
Theorem write_verify_spec (r : bhnd_resource) (reg value mask : Z)
    (w : world) :
  let v1 := fst (bhnd_bus_read_4 r reg w) in
  let written := Z.lor (Z.land v1 (not32 mask)) (Z.land value mask) in
  exists v2 v3,
    trace (snd (write_verify r reg value mask w))
    = [EvRead r reg v3; EvDelay 1; EvRead r reg v2; EvWrite r reg written;
       EvRead r reg v1] ++ trace w
    /\ fst (write_verify r reg value mask w)
       = (Z.land v3 mask =? Z.land value mask)
    /\ Z.land written mask = Z.land value mask
    /\ Z.land written (not32 mask) = Z.land v1 (not32 mask).
Proof.
  intros v1 written.
  destruct (write_verify_trace r reg value mask w) as (v2 & v3 & Ht & Hf).
  destruct (masked_update_bits v1 value mask) as [Hm Hk].
  exists v2, v3. auto.
Qed.

Lemma write_verify_extends (r : bhnd_resource) (reg value mask : Z)
    (w : world) :
  extends (target_state_event r reg value mask) w
    (snd (write_verify r reg value mask w)).
Proof.
  destruct (write_verify_trace r reg value mask w) as (v2 & v3 & Ht & _).
  destruct (masked_update_bits (fst (bhnd_bus_read_4 r reg w)) value mask)
    as [Hm _].
  eexists. split; [exact Ht |].
  repeat constructor; cbn; auto.
Qed.

Lemma write_attempt_extends (dinfo : siba_devinfo) (r : bhnd_resource)
    (reg value mask : Z) (w : world) :
  cfg_at dinfo 0 = Some r ->
  extends (target_state_event r reg value mask) w
    (snd (write_attempt dinfo r reg value mask w)).
Proof.
  intros Hcfg.
  pose proof (write_verify_extends r reg value mask w) as Hv.
  destruct (fst (write_verify r reg value mask w)) eqn:El.
  - rewrite write_attempt_hit by assumption. cbn [snd].
    eapply extends_trans; [exact Hv |].
    eapply extends_impl; [apply busy_wait_is_target_state_event |].
    now apply siba_wait_target_busy_extends.
  - rewrite write_attempt_miss by assumption. cbn [snd DELAY].
    eapply extends_trans; [exact Hv |].
    eapply extends_event; [reflexivity | exact I].
Qed.

(** siba_write_target_state touches the first config window only: it reads
    the register it is given and SIBA_CFG0_TMSTATEHIGH, and every value it
    writes goes to the register it is given and carries the bits of [value]
    under [mask]; when it fails on the window or the offset it leaves no
    event at all. *)
Theorem siba_write_target_state_events (dinfo : siba_devinfo)
    (reg value mask : Z) (w : world) :
  (forall r, cfg_at dinfo 0 = Some r ->
     extends (target_state_event r reg value mask) w
       (snd (siba_write_target_state dinfo reg value mask w)))
  /\ (cfg_at dinfo 0 = None \/ SIBA_CFG_SIZE - 4 < reg ->
      snd (siba_write_target_state dinfo reg value mask w) = w).
Proof.
  unfold siba_write_target_state. split.
  - intros r Hcfg. rewrite Hcfg.
    destruct (SIBA_CFG_SIZE - 4 <? reg); [apply extends_refl |].
    unfold bind.
    pose proof (for_step10_extends (target_state_event r reg value mask)
      (write_attempt dinfo r reg value mask)
      (fun w0 => write_attempt_extends dinfo r reg value mask w0 Hcfg)
      _ 300 0 w eq_refl) as Hloop.
    destruct (for_step10 300 (write_attempt dinfo r reg value mask) 0 w)
      as [[res |] w']; exact Hloop.
  - intros [Hcfg | Hreg].
    + now rewrite Hcfg.
    + destruct (cfg_at dinfo 0); [| reflexivity].
      destruct (Z.ltb_spec (SIBA_CFG_SIZE - 4) reg); [reflexivity | lia].
Qed.

End TraceProofs.

Lemma siba_wait_target_busy_events_witness :
  extends (busy_wait_event (R:=siba_regs) (B:=stuck_bus) tt)
    stuck_world
    (snd (siba_wait_target_busy (R:=siba_regs) stuck_dinfo 25 stuck_world)).
Proof.
  apply (siba_wait_target_busy_events (R:=siba_regs) stuck_dinfo 25
    stuck_world). reflexivity.
Defined.

Lemma siba_write_target_state_events_witness :
  extends
    (target_state_event (R:=siba_regs) (B:=latching_bus) tt 0x98 0x11 0xF0)
    latching_world
    (snd (siba_write_target_state (R:=siba_regs) latching_dinfo 0x98 0x11 0xF0
            latching_world))
  /\ snd (siba_write_target_state (R:=siba_regs) latching_dinfo 0xFD 0x11 0xF0
            latching_world) = latching_world.
Proof.
  split.
  - apply (siba_write_target_state_events (R:=siba_regs) latching_dinfo 0x98
      0x11 0xF0 latching_world). reflexivity.
  - apply (siba_write_target_state_events (R:=siba_regs) latching_dinfo 0xFD
      0x11 0xF0 latching_world). right. decide_layout.
Defined.

(** ** Longer timeouts *)

Section TimeoutProofs.
Context {R : sibareg} {B : bhnd_bus}.

(** A loop that returns does so at a first run of its body that returns. *)
Lemma for_step10_returned {A : Type} (body : M (option A)) (n : nat) :
  forall (bound i : Z) (w w' : world) (a : A),
  iterations bound i = n ->
  for_step10 bound body i w = (Some a, w') ->
  exists k, (k < n)%nat
    /\ (forall j, (j < k)%nat -> fst (body (after_runs body j w)) = None)
    /\ body (after_runs body k w) = (Some a, w').
Proof.
  induction n as [| n IH]; intros bound i w w' a Hn Hret;
    rewrite for_step10_step in Hret;
    destruct (Z.ltb_spec i bound) as [Hlt |]; try discriminate.
  - rewrite (iterations_step _ _ Hlt) in Hn. discriminate.
  - rewrite (iterations_step _ _ Hlt) in Hn.
    destruct (body w) as [[a0 |] w0] eqn:Eb.
    + exists O. split; [lia | split; [intros j Hj; lia |]].
      cbn [after_runs]. congruence.
    + destruct (IH bound (i + 10) w0 w' a ltac:(congruence) Hret)
        as (k & Hk & Hmiss & Hhit).
      exists (S k). split; [lia | split].
      * intros [| j] Hj; cbn [after_runs]; rewrite Eb; cbn [fst snd];
          [reflexivity | apply Hmiss; lia].
      * cbn [after_runs]. now rewrite Eb.
Qed.

Lemma iterations_mono (bound bound' i : Z) :
  bound <= bound' -> (iterations bound i <= iterations bound' i)%nat.
Proof.
  intros Hle. unfold iterations.
  assert ((bound - i + 9) / 10 <= (bound' - i + 9) / 10)
    by (apply Z.div_le_mono; lia).
  lia.
Qed.

(** A wait that succeeds within a timeout succeeds the same way, with the
    same register reads and the same delays, within every longer timeout. *)
Theorem siba_wait_target_busy_longer (dinfo : siba_devinfo)
    (usec usec' : Z) (w : world) :
  usec <= usec' ->
  fst (siba_wait_target_busy dinfo usec w) = Ok tt ->
  siba_wait_target_busy dinfo usec' w = siba_wait_target_busy dinfo usec w.
Proof.
  intros Hle. unfold siba_wait_target_busy.
  destruct (cfg_at dinfo 0) as [r |]; [| discriminate]. unfold bind.
  destruct (for_step10 usec (busy_poll r) 0 w) as [[res |] w1] eqn:El;
    cbn [ret fst]; [| discriminate].
  intros ->.
  destruct (for_step10_returned (busy_poll r) _ usec 0 w w1 (Ok tt)
    eq_refl El) as (k & Hk & Hmiss & Hhit).
  rewrite (for_step10_hit (busy_poll r) (Ok tt) k usec' 0 w).
  - now rewrite Hhit.
  - pose proof (iterations_mono usec usec' 0 Hle). lia.
  - exact Hmiss.
  - now rewrite Hhit.
Qed.

End TimeoutProofs.

Lemma siba_wait_target_busy_longer_witness :
  siba_wait_target_busy (R:=siba_regs) latching_dinfo 100000 latching_world
  = siba_wait_target_busy (R:=siba_regs) latching_dinfo 10 latching_world.
Proof.
  apply (siba_wait_target_busy_longer (R:=siba_regs) latching_dinfo 10 100000
    latching_world); [lia | reflexivity].
Defined.
